(** * Library catalogue ([library.py]): shallow embedding and verification

    The program keeps a list of [Book] objects in memory, rewrites the whole
    list to [data.json] after every mutation and reports to the operator with
    [print].  Python integers are unbounded, so they are [Z]; Python [str]
    values are [string]s holding the UTF-8 bytes of the text (equality of
    texts is equality of their encodings, and since UTF-8 is self-synchronising
    the [in] operator on texts is containment of the encodings). *)

From Stdlib Require Import ZArith List String Ascii Bool Lia Sorted.
From Stdlib Require Import DecimalString.
From Stdlib Require DecimalPos DecimalFacts.
From Stdlib Require Import Permutation.
Import ListNotations.
Local Open Scope string_scope.
Local Open Scope Z_scope.
Local Open Scope list_scope.
#[local] Set Warnings "-register-all".


(** ** Python results *)

(** The exceptions the modelled code can raise.  [OutsideModel] is not a
    Python exception: it marks an input on which Python would go on with a
    value the typed records below cannot hold (a record whose [id] is a JSON
    string, an attribute of the class rather than of the instance).
    [UnicodeDecodeError] and [OtherError], which names any other class, are
    what reading the file can raise. *)
Inductive exn : Type :=
| AttributeError
| TypeError
| OutsideModel
| UnicodeDecodeError
| OtherError (class_name : string).

Inductive result (A : Type) : Type :=
| Ok (a : A)
| Raise (e : exn).
Arguments Ok {A} a.
Arguments Raise {A} e.

Definition bind {A B : Type} (r : result A) (k : A -> result B) : result B :=
  match r with
  | Ok a => k a
  | Raise e => Raise e
  end.

Notation "x <- r ;; k" := (bind r (fun x => k))
  (at level 61, r at next level, right associativity).

(** ** class Book *)

Record Book : Type := mkBook {
  id : Z;
  title : string;
  author : string;
  year : Z;
  status : string
}.

Definition in_stock : string := "в наличии".
Definition lent_out : string := "выдана".

(** [Book(id, title, author, year)]: the fifth parameter takes its default. *)
Definition Book_init (i : Z) (t a : string) (y : Z) : Book :=
  mkBook i t a y in_stock.

(** JSON documents, as [json.load] hands them to the program: [None], [bool],
    [int], [float] (kept as its literal), [str], [list] and [dict] (in
    insertion order). *)
Inductive json : Type :=
| JNull
| JBool (b : bool)
| JInt (z : Z)
| JFloat (literal : string)
| JStr (s : string)
| JList (l : list json)
| JObj (kv : list (string * json)).

Definition dict : Type := list (string * json).

(** [Book.to_dict] *)
Definition to_dict (b : Book) : dict :=
  [ ("id", JInt (id b));
    ("title", JStr (title b));
    ("author", JStr (author b));
    ("year", JInt (year b));
    ("status", JStr (status b)) ].

(** [[book.to_dict() for book in books]], the value [save_data] hands to
    [json.dump]. *)
Definition document (bs : list Book) : json :=
  JList (map (fun book => JObj (to_dict book)) bs).

Fixpoint dict_get (k : string) (d : dict) : option json :=
  match d with
  | [] => None
  | (k', v) :: d' => if String.eqb k k' then Some v else dict_get k d'
  end.

Definition param_names : list string :=
  ["id"; "title"; "author"; "year"; "status"].

Definition is_param (k : string) : bool :=
  existsb (String.eqb k) param_names.

(** [Book] called with the keyword arguments of a dict ([**] unpacking):
    a key that is no parameter of
    [__init__], or a missing [id], [title], [author] or [year], is a
    [TypeError]; a missing [status] takes the default. *)
Definition Book_of_kwargs (kw : dict) : result Book :=
  if negb (forallb (fun kv => is_param (fst kv)) kw) then Raise TypeError
  else
    match dict_get "id" kw, dict_get "title" kw,
          dict_get "author" kw, dict_get "year" kw with
    | Some vi, Some vt, Some va, Some vy =>
        match vi, vt, va, vy with
        | JInt i, JStr t, JStr a, JInt y =>
            match dict_get "status" kw with
            | None => Ok (Book_init i t a y)
            | Some (JStr s) => Ok (mkBook i t a y s)
            | Some _ => Raise OutsideModel
            end
        | _, _, _, _ => Raise OutsideModel
        end
    | _, _, _, _ => Raise TypeError
    end.

(** [Book] called with [**] on any JSON value: only a dict can be unpacked. *)
Definition Book_of_json (book : json) : result Book :=
  match book with
  | JObj kw => Book_of_kwargs kw
  | _ => Raise TypeError
  end.

Fixpoint map_result {A B : Type} (f : A -> result B) (l : list A)
  : result (list B) :=
  match l with
  | [] => Ok []
  | x :: l' =>
      y <- f x ;;
      ys <- map_result f l' ;;
      Ok (y :: ys)
  end.

(** The comprehension of [load_data] over [data]: a list is walked element by element;
    a dict yields its keys and a [str] its characters, which are strings and
    cannot be unpacked; the other values are not iterable. *)
Definition books_of_json (data : json) : result (list Book) :=
  match data with
  | JList l => map_result Book_of_json l
  | JObj [] => Ok []
  | JStr EmptyString => Ok []
  | _ => Raise TypeError
  end.

(** ** Console and disk *)

(** One constructor per [print] statement of the three classes, carrying the
    values interpolated into the message. *)
Inductive output : Type :=
| FileMissingOrEmpty
| FileCorrupt
| Added (t : string) (i : Z)
| NotFound (book_id : Z)
| Deleted (book_id : Z)
| PrintedBook (d : dict)
| NoMatches (query : string)
| NoBooks
| BadStatus
| StatusChanged (book_id : Z) (new_status : string).

(** The environment of a [Library] object: the contents of [data.json], a
    UTF-8 text ([None] when the file does not exist; the size [os.stat]
    reports is the length of the text), how many times the file was opened
    for writing, and what was printed so far. *)
Record world : Type := mkWorld {
  disk : option string;
  writes : nat;
  console : list output
}.

Definition print (o : output) (w : world) : world :=
  mkWorld (disk w) (writes w) (console w ++ [o]).

(** [open(data_file, 'w')] followed by the writing of [text]. *)
Definition write_file (text : string) (w : world) : world :=
  mkWorld (Some text) (S (writes w)) (console w).

(** The [Library] object ([books]) together with its environment. *)
Record state : Type := mkState {
  books : list Book;
  env : world
}.

(** ** Python built-ins used by the catalogue *)

(** [max(l, default=d)] *)
Definition py_max (l : list Z) (d : Z) : Z :=
  match l with
  | [] => d
  | x :: l' => fold_left Z.max l' x
  end.

(** [needle in hay] on strings *)
Fixpoint str_in (needle hay : string) : bool :=
  String.prefix needle hay ||
  match hay with
  | EmptyString => false
  | String _ hay' => str_in needle hay'
  end.

Inductive value : Type :=
| VInt (z : Z)
| VStr (s : string).

(** [getattr(book, field)] for the attributes [__init__] sets. *)
Definition getattr (b : Book) (field : string) : result value :=
  if String.eqb field "id" then Ok (VInt (id b))
  else if String.eqb field "title" then Ok (VStr (title b))
  else if String.eqb field "author" then Ok (VStr (author b))
  else if String.eqb field "year" then Ok (VInt (year b))
  else if String.eqb field "status" then Ok (VStr (status b))
  else Raise OutsideModel.

(** What [json.load(file)] does with the contents of the file: it returns
    the value, it raises [json.JSONDecodeError], or it raises something
    else, which [load_data] does not catch ([UnicodeDecodeError] on bytes
    that are no UTF-8, [RecursionError] on deep nesting, [ValueError] on a
    number too long). *)
Inductive loaded : Type :=
| Parsed (data : json)
| JSONDecodeError
| LoadError (e : exn).

Section Catalogue.

(** [json.dumps(_, indent=4, ensure_ascii=False)], [json.load] on the
    contents of the file, and [str.lower]. *)
Variable json_dumps : json -> string.
Variable json_loads : string -> loaded.
Variable lower : string -> string.

(** *** class Services *)

Definition load_data (w : world) : result (list Book) * world :=
  match disk w with
  | None => (Ok [], print FileMissingOrEmpty w)
  | Some text =>
      if (String.length text =? 0)%nat
      then (Ok [], print FileMissingOrEmpty w)
      else
        match json_loads text with
        | Parsed data => (books_of_json data, w)
        | JSONDecodeError => (Ok [], print FileCorrupt w)
        | LoadError e => (Raise e, w)
        end
  end.

Definition save_data (bs : list Book) (w : world) : world :=
  write_file (json_dumps (document bs)) w.

(** *** class Library *)

Definition Library_init (w : world) : result state :=
  let (r, w') := load_data w in
  bs <- r ;;
  Ok (mkState bs w').

Definition generate_id (bs : list Book) : Z :=
  py_max (map id bs) 0 + 1.

Definition add_book (t a : string) (y : Z) (s : state) : state :=
  let new_book := Book_init (generate_id (books s)) t a y in
  let bs := books s ++ [new_book] in
  mkState bs (print (Added t (id new_book)) (save_data bs (env s))).

Definition delete_book (book_id : Z) (s : state) : state :=
  let book_exists := existsb (fun book => id book =? book_id) (books s) in
  if negb book_exists
  then mkState (books s) (print (NotFound book_id) (env s))
  else
    let bs := filter (fun book => negb (id book =? book_id)) (books s) in
    mkState bs (print (Deleted book_id) (save_data bs (env s))).

(** The comprehension of [search_books]: the condition is evaluated book
    by book, and [.lower()] on an [int] raises [AttributeError]. *)
Fixpoint search_results (bs : list Book) (query field : string)
  : result (list Book) :=
  match bs with
  | [] => Ok []
  | book :: bs' =>
      v <- getattr book field ;;
      match v with
      | VStr text =>
          let keep := str_in (lower query) (lower text) in
          rest <- search_results bs' query field ;;
          Ok (if keep then book :: rest else rest)
      | VInt _ => Raise AttributeError
      end
  end.

Definition print_books (bs : list Book) (w : world) : world :=
  fold_left (fun w' book => print (PrintedBook (to_dict book)) w') bs w.

Definition search_books (query field : string) (s : state) : result state :=
  results <- search_results (books s) query field ;;
  match results with
  | [] => Ok (mkState (books s) (print (NoMatches query) (env s)))
  | _ => Ok (mkState (books s) (print_books results (env s)))
  end.

Definition display_books (s : state) : state :=
  match books s with
  | [] => mkState (books s) (print NoBooks (env s))
  | _ => mkState (books s) (print_books (books s) (env s))
  end.

Definition with_status (b : Book) (new_status : string) : Book :=
  mkBook (id b) (title b) (author b) (year b) new_status.

(** The [for] loop of [change_status]: the first book with the given id
    gets the new status and the loop is left; [None] when the loop runs to
    its end. *)
Fixpoint assign_status (bs : list Book) (book_id : Z) (new_status : string)
  : option (list Book) :=
  match bs with
  | [] => None
  | book :: bs' =>
      if id book =? book_id
      then Some (with_status book new_status :: bs')
      else option_map (cons book) (assign_status bs' book_id new_status)
  end.

Definition legal_status (new_status : string) : bool :=
  existsb (String.eqb new_status) [in_stock; lent_out].

Definition change_status (book_id : Z) (new_status : string) (s : state)
  : state :=
  if negb (legal_status new_status)
  then mkState (books s) (print BadStatus (env s))
  else
    match assign_status (books s) book_id new_status with
    | Some bs =>
        mkState bs (print (StatusChanged book_id new_status)
                          (save_data bs (env s)))
    | None => mkState (books s) (print (NotFound book_id) (env s))
    end.

End Catalogue.

(** ** Sessions *)

(** The mutating calls an operator can make on a [Library]. *)
Inductive command : Type :=
| AddBook (t a : string) (y : Z)
| DeleteBook (book_id : Z)
| ChangeStatus (book_id : Z) (new_status : string).

Definition exec (json_dumps : json -> string) (c : command) (s : state)
  : state :=
  match c with
  | AddBook t a y => add_book json_dumps t a y s
  | DeleteBook book_id => delete_book json_dumps book_id s
  | ChangeStatus book_id new_status =>
      change_status json_dumps book_id new_status s
  end.

Definition run (json_dumps : json -> string) (cs : list command) (s : state)
  : state :=
  fold_left (fun s' c => exec json_dumps c s') cs s.

(** The ids the program reported for the books it added, oldest first. *)
Definition added_ids (o : list output) : list Z :=
  flat_map (fun e => match e with Added _ i => [i] | _ => [] end) o.

(** [delete_book book_id] takes away a book that carries the largest id. *)
Definition removes_top (book_id : Z) (bs : list Book) : bool :=
  existsb (fun book => id book =? book_id) bs
  && (generate_id bs =? book_id + 1).

(** No deletion of a session takes away a book carrying the largest id. *)
Fixpoint top_kept (json_dumps : json -> string) (cs : list command)
  (s : state) : bool :=
  match cs with
  | [] => true
  | c :: cs' =>
      match c with
      | DeleteBook book_id => negb (removes_top book_id (books s))
      | _ => true
      end
      && top_kept json_dumps cs' (exec json_dumps c s)
  end.

Definition ids (bs : list Book) : list Z := map id bs.

(** ** A JSON codec to run the catalogue on

    A printer laid out as [json.dumps(_, indent=4, ensure_ascii=False)] and a
    recursive-descent reader for JSON without floating-point literals and
    without surrogate escapes.  The theorems below hold for any codec; this
    one makes the catalogue executable on concrete files. *)
Module Codec.

Local Open Scope string_scope.

Definition dq : ascii := "034"%char.

Fixpoint indent (level : nat) : string :=
  match level with
  | O => EmptyString
  | S level' => "    " ++ indent level'
  end.

Definition nl (level : nat) : string := String "010" (indent level).

Definition hex_digit (n : N) : ascii :=
  match n with
  | 0%N => "0" | 1%N => "1" | 2%N => "2" | 3%N => "3" | 4%N => "4"
  | 5%N => "5" | 6%N => "6" | 7%N => "7" | 8%N => "8" | 9%N => "9"
  | 10%N => "a" | 11%N => "b" | 12%N => "c" | 13%N => "d" | 14%N => "e"
  | _ => "f"
  end%char.

Definition escape_char (c : ascii) : string :=
  let n := N_of_ascii c in
  if (n =? 34)%N then String "\" (String dq EmptyString)
  else if (n =? 92)%N then "\\"
  else if (n =? 10)%N then "\n"
  else if (n =? 13)%N then "\r"
  else if (n =? 9)%N then "\t"
  else if (n =? 8)%N then "\b"
  else if (n =? 12)%N then "\f"
  else if (n <? 32)%N
       then "\u00" ++ String (hex_digit (n / 16)) (String (hex_digit (n mod 16)) EmptyString)
  else String c EmptyString.

Fixpoint escape (s : string) : string :=
  match s with
  | EmptyString => EmptyString
  | String c s' => escape_char c ++ escape s'
  end.

Definition quote (s : string) : string :=
  String dq (escape s ++ String dq EmptyString).

Definition dump_int (z : Z) : string :=
  NilZero.string_of_int (Z.to_int z).

Fixpoint dump (level : nat) (j : json) : string :=
  match j with
  | JNull => "null"
  | JBool true => "true"
  | JBool false => "false"
  | JInt z => dump_int z
  | JFloat literal => literal
  | JStr s => quote s
  | JList [] => "[]"
  | JList (x :: l) =>
      "[" ++ nl (S level) ++ dump (S level) x
      ++ (fix items (l : list json) : string :=
            match l with
            | [] => EmptyString
            | y :: l' => "," ++ nl (S level) ++ dump (S level) y ++ items l'
            end) l
      ++ nl level ++ "]"
  | JObj [] => "{}"
  | JObj ((k, v) :: kv) =>
      "{" ++ nl (S level) ++ quote k ++ ": " ++ dump (S level) v
      ++ (fix members (kv : list (string * json)) : string :=
            match kv with
            | [] => EmptyString
            | (k', v') :: kv' =>
                "," ++ nl (S level) ++ quote k' ++ ": " ++ dump (S level) v'
                ++ members kv'
            end) kv
      ++ nl level ++ "}"
  end.

(** The elements of a list after the first, as [dump] lays them out. *)
Fixpoint dump_items (level : nat) (l : list json) : string :=
  match l with
  | [] => EmptyString
  | y :: l' => "," ++ nl level ++ dump level y ++ dump_items level l'
  end.

Definition dumps (j : json) : string := dump 0 j.

Definition is_ws (c : ascii) : bool :=
  let n := N_of_ascii c in
  ((n =? 32) || (n =? 9) || (n =? 10) || (n =? 13))%N.

Fixpoint skip_ws (s : string) : string :=
  match s with
  | String c s' => if is_ws c then skip_ws s' else s
  | EmptyString => s
  end.

Definition digit_of (c : ascii) : option Z :=
  let n := N_of_ascii c in
  if ((48 <=? n) && (n <=? 57))%N then Some (Z.of_N (n - 48)) else None.

Fixpoint read_digits (acc : Z) (s : string) : Z * string :=
  match s with
  | String c s' =>
      match digit_of c with
      | Some d => read_digits (10 * acc + d) s'
      | None => (acc, s)
      end
  | EmptyString => (acc, s)
  end.

Definition starts_fraction (s : string) : bool :=
  match s with
  | String c _ => Ascii.eqb c "." || Ascii.eqb c "e" || Ascii.eqb c "E"
  | EmptyString => false
  end.

(** An integer literal: [0] or a digit from 1 to 9 followed by digits. *)
Definition read_natural (s : string) : option (Z * string) :=
  match s with
  | String c s' =>
      match digit_of c with
      | Some 0 => if starts_fraction s' then None else Some (0, s')
      | Some d =>
          let (n, r) := read_digits d s' in
          if starts_fraction r then None else Some (n, r)
      | None => None
      end
  | EmptyString => None
  end.

Definition read_number (s : string) : option (json * string) :=
  match s with
  | String c s' =>
      if Ascii.eqb c "-"
      then match read_natural s' with
           | Some (n, r) => Some (JInt (- n), r)
           | None => None
           end
      else match read_natural s with
           | Some (n, r) => Some (JInt n, r)
           | None => None
           end
  | EmptyString => None
  end.

Definition hex_val (c : ascii) : option N :=
  let n := N_of_ascii c in
  if ((48 <=? n) && (n <=? 57))%N then Some (n - 48)%N
  else if ((97 <=? n) && (n <=? 102))%N then Some (n - 87)%N
  else if ((65 <=? n) && (n <=? 70))%N then Some (n - 55)%N
  else None.

Definition byte (n : N) : string := String (ascii_of_N n) EmptyString.

(** UTF-8 of a code point of the basic plane that is no surrogate. *)
Definition utf8 (cp : N) : option string :=
  if (cp <? 128)%N then Some (byte cp)
  else if (cp <? 2048)%N
  then Some (byte (192 + cp / 64) ++ byte (128 + cp mod 64))
  else if ((55296 <=? cp) && (cp <=? 57343))%N then None
  else Some (byte (224 + cp / 4096) ++ byte (128 + (cp / 64) mod 64)
             ++ byte (128 + cp mod 64)).

Definition unescape (e : ascii) : option string :=
  let n := N_of_ascii e in
  if ((n =? 34) || (n =? 92) || (n =? 47))%N then Some (String e EmptyString)
  else if Ascii.eqb e "b" then Some (byte 8)
  else if Ascii.eqb e "f" then Some (byte 12)
  else if Ascii.eqb e "n" then Some (byte 10)
  else if Ascii.eqb e "r" then Some (byte 13)
  else if Ascii.eqb e "t" then Some (byte 9)
  else None.

(** The text of a string literal after its opening quote, and what
    follows the closing quote. *)
Fixpoint read_string (s : string) : option (string * string) :=
  match s with
  | EmptyString => None
  | String c s' =>
      let n := N_of_ascii c in
      if (n =? 34)%N then Some (EmptyString, s')
      else if (n =? 92)%N then
        match s' with
        | String e s'' =>
            if Ascii.eqb e "u" then
              match s'' with
              | String h1 (String h2 (String h3 (String h4 s5))) =>
                  match hex_val h1, hex_val h2, hex_val h3, hex_val h4 with
                  | Some a, Some b, Some c', Some d =>
                      match utf8 (((a * 16 + b) * 16 + c') * 16 + d)%N,
                            read_string s5 with
                      | Some t, Some (u, r) => Some (t ++ u, r)
                      | _, _ => None
                      end
                  | _, _, _, _ => None
                  end
              | _ => None
              end
            else
              match unescape e, read_string s'' with
              | Some t, Some (u, r) => Some (t ++ u, r)
              | _, _ => None
              end
        | EmptyString => None
        end
      else if (n <? 32)%N then None
      else
        match read_string s' with
        | Some (u, r) => Some (String c u, r)
        | None => None
        end
  end.

Definition read_word (w : string) (j : json) (s : string)
  : option (json * string) :=
  if String.prefix w s
  then Some (j, substring (String.length w)
                          (String.length s - String.length w) s)
  else None.

(** [d[k] = v] *)
Fixpoint dict_set (k : string) (v : json) (d : dict) : dict :=
  match d with
  | [] => [(k, v)]
  | (k', v') :: d' =>
      if String.eqb k k' then (k', v) :: d' else (k', v') :: dict_set k v d'
  end.

Definition make_dict (members : list (string * json)) : dict :=
  fold_left (fun d kv => dict_set (fst kv) (snd kv) d) members [].

Fixpoint parse_value (fuel : nat) (s : string) : option (json * string) :=
  match fuel with
  | O => None
  | S fuel' =>
      match skip_ws s with
      | EmptyString => None
      | String c rest as s0 =>
          if Ascii.eqb c dq then
            match read_string rest with
            | Some (t, r) => Some (JStr t, r)
            | None => None
            end
          else if Ascii.eqb c "[" then
            match skip_ws rest with
            | String c' r as r0 =>
                if Ascii.eqb c' "]" then Some (JList [], r)
                else match parse_items fuel' r0 with
                     | Some (l, r') => Some (JList l, r')
                     | None => None
                     end
            | EmptyString => None
            end
          else if Ascii.eqb c "{" then
            match skip_ws rest with
            | String c' r as r0 =>
                if Ascii.eqb c' "}" then Some (JObj [], r)
                else match parse_members fuel' r0 with
                     | Some (kv, r') => Some (JObj (make_dict kv), r')
                     | None => None
                     end
            | EmptyString => None
            end
          else if Ascii.eqb c "t" then read_word "true" (JBool true) s0
          else if Ascii.eqb c "f" then read_word "false" (JBool false) s0
          else if Ascii.eqb c "n" then read_word "null" JNull s0
          else read_number s0
      end
  end
with parse_items (fuel : nat) (s : string) : option (list json * string) :=
  match fuel with
  | O => None
  | S fuel' =>
      match parse_value fuel' s with
      | Some (v, r) =>
          match skip_ws r with
          | String c r' =>
              if Ascii.eqb c "," then
                match parse_items fuel' r' with
                | Some (l, r'') => Some (v :: l, r'')
                | None => None
                end
              else if Ascii.eqb c "]" then Some ([v], r')
              else None
          | EmptyString => None
          end
      | None => None
      end
  end
with parse_members (fuel : nat) (s : string)
  : option (list (string * json) * string) :=
  match fuel with
  | O => None
  | S fuel' =>
      match skip_ws s with
      | String q r =>
          if Ascii.eqb q dq then
            match read_string r with
            | Some (k, r1) =>
                match skip_ws r1 with
                | String c r2 =>
                    if Ascii.eqb c ":" then
                      match parse_value fuel' r2 with
                      | Some (v, r3) =>
                          match skip_ws r3 with
                          | String c' r4 =>
                              if Ascii.eqb c' "," then
                                match parse_members fuel' r4 with
                                | Some (kv, r5) => Some ((k, v) :: kv, r5)
                                | None => None
                                end
                              else if Ascii.eqb c' "}" then Some ([(k, v)], r4)
                              else None
                          | EmptyString => None
                          end
                      | None => None
                      end
                    else None
                | EmptyString => None
                end
            | None => None
            end
          else None
      | EmptyString => None
      end
  end.

Definition loads (s : string) : option json :=
  match parse_value (2 * String.length s + 2) s with
  | Some (j, r) =>
      match skip_ws r with
      | EmptyString => Some j
      | String _ _ => None
      end
  | None => None
  end.

(** [json.load] by this reader: every byte string is taken as text. *)
Definition load (s : string) : loaded :=
  match loads s with
  | Some data => Parsed data
  | None => JSONDecodeError
  end.

End Codec.

Definition lower_char (c : ascii) : ascii :=
  let n := N_of_ascii c in
  if ((65 <=? n) && (n <=? 90))%N then ascii_of_N (n + 32) else c.

(** [str.lower] on ASCII text, to run searches on. *)
Fixpoint ascii_lower (s : string) : string :=
  match s with
  | EmptyString => EmptyString
  | String c s' => String (lower_char c) (ascii_lower s')
  end.


Definition dune : Book := Book_init 1 "Dune" "Herbert" 1965.
Definition foundation : Book := Book_init 2 "Foundation" "Asimov" 1951.

Definition fresh_world : world := mkWorld None 0%nat [].
Definition empty_library : state := mkState [] fresh_world.

(** A file cut off in the middle of a list, and a file that is JSON but
    holds no books. *)
Definition torn_world : world := mkWorld (Some "[1, 2") 0%nat [].
Definition numbers_world : world := mkWorld (Some "[1, 2]") 0%nat [].

Definition two_books : state := mkState [dune; foundation] fresh_world.

(** Two sessions on an empty library: the first deletes a book below the
    largest id, the second deletes the only book. *)
Definition keeping_session : list command :=
  [ AddBook "Dune" "Herbert" 1965; AddBook "Foundation" "Asimov" 1951;
    DeleteBook 1; ChangeStatus 2 lent_out; AddBook "Emma" "Austen" 1815 ].

Definition reusing_session : list command :=
  [ AddBook "Dune" "Herbert" 1965; DeleteBook 1;
    AddBook "Emma" "Austen" 1815 ].

(** ** Notions for sessions *)

(** The file holds the collection as [save_data] writes it. *)
Definition synced (json_dumps : json -> string) (s : state) : Prop :=
  disk (env s) = Some (json_dumps (document (books s))).

(** The messages of the calls that changed the collection. *)
Definition is_mutation (o : output) : bool :=
  match o with
  | Added _ _ | Deleted _ | StatusChanged _ _ => true
  | _ => false
  end.

(** What [search_books] prints for the books it found. *)
Definition show_books (query : string) (matches : list Book) : list output :=
  match matches with
  | [] => [NoMatches query]
  | _ => map (fun book => PrintedBook (to_dict book)) matches
  end.

(** Two states with the same collection and the same file. *)
Definition same_store (s1 s2 : state) : Prop :=
  books s1 = books s2
  /\ disk (env s1) = disk (env s2)
  /\ writes (env s1) = writes (env s2).

(** ** The menu ([main]) *)

(** What ends [main] early: [input] at the end of the script, [int] on a
    text that is no number, or an exception of the library. *)
Inductive error : Type :=
| EOFError
| ValueError
| LibraryError (e : exn).

(** The prompts of the [input] calls. *)
Inductive prompt : Type :=
| AskChoice
| AskTitle
| AskTitleAgain
| AskAuthor
| AskYear
| AskYearAgain
| AskDeleteId
| AskField
| AskQuery (field : string)
| AskStatusId
| AskStatus.

(** What appears on the terminal: the menu (the seven [print] calls at the
    head of the loop), a prompt, a message of [main], or a message of the
    library. *)
Inductive shown : Type :=
| Menu
| Asked (p : prompt)
| TitleExists (t : string)
| BadId
| BadField
| BadChoice
| Said (o : output).

(** The library, the terminal and the lines the operator has still to
    type. *)
Record session : Type := mkSession {
  lib : state;
  screen : list shown;
  keys : list string
}.

Inductive reply (A : Type) : Type :=
| Val (a : A)
| Exc (e : error).
Arguments Val {A} a.
Arguments Exc {A} e.

Definition io (A : Type) : Type := session -> reply A * session.

Definition io_ret {A : Type} (a : A) : io A := fun m => (Val a, m).

Definition io_bind {A B : Type} (c : io A) (k : A -> io B) : io B :=
  fun m =>
    match c m with
    | (Val a, m') => k a m'
    | (Exc e, m') => (Exc e, m')
    end.

Notation "'let*' x ':=' c 'in' k" := (io_bind c (fun x => k))
  (at level 10, x name, c at level 100, k at level 200).

Definition raise {A : Type} (e : error) : io A := fun m => (Exc e, m).

Definition say (x : shown) : io unit :=
  fun m => (Val tt, mkSession (lib m) (screen m ++ [x]) (keys m)).

(** [input(prompt)]: the prompt is written, then a line is read. *)
Definition input (p : prompt) : io string :=
  fun m =>
    let scr := screen m ++ [Asked p] in
    match keys m with
    | [] => (Exc EOFError, mkSession (lib m) scr [])
    | line :: rest => (Val line, mkSession (lib m) scr rest)
    end.

(** What a call of the library added to its console. *)
Definition said_since (s s' : state) : list shown :=
  map Said (skipn (List.length (console (env s))) (console (env s'))).

(** A call of a method of [library]; what it prints goes to the terminal. *)
Definition call (f : state -> state) : io unit :=
  fun m =>
    let s' := f (lib m) in
    (Val tt, mkSession s' (screen m ++ said_since (lib m) s') (keys m)).

Definition call_result (f : state -> result state) : io unit :=
  fun m =>
    match f (lib m) with
    | Ok s' =>
        (Val tt, mkSession s' (screen m ++ said_since (lib m) s') (keys m))
    | Raise e => (Exc (LibraryError e), m)
    end.

Definition books_now : io (list Book) := fun m => (Val (books (lib m)), m).

Section Menu.

Variable json_dumps : json -> string.
Variable json_loads : string -> loaded.
Variable lower : string -> string.
(** [str.strip], [str.isdigit] and [int] on a text, [None] for its
    [ValueError]. *)
Variable strip : string -> string.
Variable isdigit : string -> bool.
Variable py_int : string -> option Z.

(** [choice == '1'] *)
Definition add_dialogue : io unit :=
  let* t := input AskTitle in
  let* bs := books_now in
  let* t :=
    if existsb (fun book => String.eqb (title book) t) bs
    then let* _ := say (TitleExists t) in input AskTitleAgain
    else io_ret t in
  let* a := input AskAuthor in
  let* y := input AskYear in
  let* y := if negb (isdigit y) then input AskYearAgain else io_ret y in
  match py_int y with
  | Some n => call (add_book json_dumps t a n)
  | None => raise ValueError
  end.

(** [choice == '2'] *)
Definition delete_dialogue : io unit :=
  let* text := input AskDeleteId in
  match py_int text with
  | Some book_id => call (delete_book json_dumps book_id)
  | None => say BadId
  end.

(** [choice == '3'] *)
Definition search_dialogue : io unit :=
  let* text := input AskField in
  let field := lower (strip text) in
  if existsb (String.eqb field) ["title"; "author"; "year"]
  then
    let* query := input (AskQuery field) in
    call_result (search_books lower (strip query) field)
  else say BadField.

(** [choice == '5'] *)
Definition status_dialogue : io unit :=
  let* text := input AskStatusId in
  match py_int text with
  | Some book_id =>
      let* st := input AskStatus in
      call (change_status json_dumps book_id (lower (strip st)))
  | None => say BadId
  end.

(** One pass through the body of [while True]; [true] stands for [break]. *)
Definition turn : io bool :=
  let* _ := say Menu in
  let* choice := input AskChoice in
  if String.eqb choice "1" then let* _ := add_dialogue in io_ret false
  else if String.eqb choice "2" then let* _ := delete_dialogue in io_ret false
  else if String.eqb choice "3" then let* _ := search_dialogue in io_ret false
  else if String.eqb choice "4" then let* _ := call display_books in io_ret false
  else if String.eqb choice "5" then let* _ := status_dialogue in io_ret false
  else if String.eqb choice "6" then io_ret true
  else let* _ := say BadChoice in io_ret false.

(** How the loop ends: by [break], or by an exception nothing catches. *)
Inductive ending : Type :=
| Exited
| Raised (e : error).

(** How [main] ends: in the constructor of [Library], or in the loop;
    [Unfinished] is the loop out of fuel. *)
Inductive outcome : Type :=
| NoLibrary (e : exn)
| Ended (how : ending) (m : session)
| Unfinished.

Fixpoint main_loop (fuel : nat) (m : session) : outcome :=
  match fuel with
  | O => Unfinished
  | S fuel' =>
      match turn m with
      | (Val false, m') => main_loop fuel' m'
      | (Val true, m') => Ended Exited m'
      | (Exc e, m') => Ended (Raised e) m'
      end
  end.

(** [main()] on a disk holding [file] and an operator typing [script]:
    [Library(DATA_FILE)], then the loop.  Every pass of the loop reads a
    line, so one unit of fuel per line and one more is enough. *)
Definition main (file : option string) (script : list string) : outcome :=
  match Library_init json_loads (mkWorld file 0%nat []) with
  | Raise e => NoLibrary e
  | Ok s0 =>
      main_loop (S (List.length script))
        (mkSession s0 (map Said (console (env s0))) script)
  end.

End Menu.

(** An action of the menu reads lines off the front of the script and does
    to the collection and the file what a session of library calls does. *)
Definition tame (json_dumps : json -> string) {A : Type} (c : io A) : Prop :=
  forall m r m',
    c m = (r, m') ->
    (exists used, keys m = used ++ keys m')
    /\ exists cs, same_store (lib m') (run json_dumps cs (lib m)).

(** Loading the file of a state gives its collection. *)
Definition reloads (json_loads : string -> loaded) (s : state) : Prop :=
  fst (load_data json_loads (env s)) = Ok (books s).

(** [str.strip], [str.isdigit] and [int] on ASCII text without
    underscores, to run the menu on. *)
Fixpoint ascii_rstrip (s : string) : string :=
  match s with
  | EmptyString => EmptyString
  | String c s' =>
      match ascii_rstrip s' with
      | EmptyString => if Codec.is_ws c then EmptyString else String c EmptyString
      | r => String c r
      end
  end.

Definition ascii_strip (s : string) : string :=
  ascii_rstrip (Codec.skip_ws s).

Fixpoint all_digits (s : string) : bool :=
  match s with
  | EmptyString => true
  | String c s' =>
      match Codec.digit_of c with
      | Some _ => all_digits s'
      | None => false
      end
  end.

Definition ascii_isdigit (s : string) : bool :=
  match s with
  | EmptyString => false
  | _ => all_digits s
  end.

Definition ascii_natural (s : string) : option Z :=
  if ascii_isdigit s then Some (fst (Codec.read_digits 0 s)) else None.

Definition ascii_int (s : string) : option Z :=
  match ascii_strip s with
  | String c s' as t =>
      if Ascii.eqb c "-" then option_map Z.opp (ascii_natural s')
      else if Ascii.eqb c "+" then ascii_natural s'
      else ascii_natural t
  | EmptyString => None
  end.

Definition run_main : option string -> list string -> outcome :=
  main Codec.dumps Codec.load ascii_lower ascii_strip ascii_isdigit ascii_int.

Definition run_turn : io bool :=
  turn Codec.dumps ascii_lower ascii_strip ascii_isdigit ascii_int.

(** An operator who adds two books, deletes the first, lends the second,
    lists, and then asks for a search by year. *)
Definition sample_script : list string :=
  [ "1"; "Dune"; "Herbert"; "x"; " 1965 ";
    "1"; "Foundation"; "Asimov"; "1951";
    "2"; "1"; "5"; "2"; " выдана "; "4"; "9"; "3"; "Year"; "19"; "6" ].

(** A file whose one record has its keys in another order and no status,
    and a file whose second record has nothing but an id. *)
Definition shuffled_record : dict :=
  [ ("title", JStr "Dune"); ("id", JInt 1); ("year", JInt 1965);
    ("author", JStr "Herbert") ].

Definition shuffled_world : world :=
  mkWorld (Some (Codec.dumps (JList [JObj shuffled_record]))) 0%nat [].

Definition broken_world : world :=
  mkWorld (Some (Codec.dumps
                   (JList [JObj (to_dict dune); JObj [("id", JInt 2)]])))
          0%nat [].

(** The library after one book was added to an empty one. *)
Definition one_book : state :=
  add_book Codec.dumps "Dune" "Herbert" 1965 empty_library.

(** * Verification *)

(** ** [max] and [generate_id] *)

Lemma fold_max_lower_bound (l : list Z) (a : Z) :
  a <= fold_left Z.max l a /\ Forall (fun x => x <= fold_left Z.max l a) l.
Proof.
  revert a. induction l as [|x l IH]; intros a; simpl.
  - split; [lia | constructor].
  - destruct (IH (Z.max a x)) as [Hge Hall]. split; [lia|].
    constructor; [lia | exact Hall].
Qed.

Lemma fold_max_attained (l : list Z) (a : Z) :
  In (fold_left Z.max l a) (a :: l).
Proof.
  revert a. induction l as [|x l IH]; intros a; simpl.
  - now left.
  - destruct (IH (Z.max a x)) as [H | H].
    + destruct (Z.max_spec a x) as [[_ E] | [_ E]]; rewrite E in *; auto.
    + right; right; exact H.
Qed.

(** [max] of a non-empty list is its greatest element; the default plays no
    part. *)
Lemma py_max_greatest (x : Z) (l : list Z) (d : Z) :
  In (py_max (x :: l) d) (x :: l)
  /\ Forall (fun y => y <= py_max (x :: l) d) (x :: l).
Proof.
  split.
  - apply fold_max_attained.
  - destruct (fold_max_lower_bound l x) as [H1 H2]. constructor; assumption.
Qed.

Lemma py_max_unique (l : list Z) (d m : Z) :
  In m l -> Forall (fun y => y <= m) l -> py_max l d = m.
Proof.
  intros Hin Hle. destruct l as [|x l]; [contradiction|].
  destruct (py_max_greatest x l d) as [Hin' Hle'].
  rewrite Forall_forall in Hle, Hle'.
  apply Z.le_antisymm; auto.
Qed.

Lemma generate_id_above (bs : list Book) :
  Forall (fun book => id book < generate_id bs) bs.
Proof.
  unfold generate_id. destruct bs as [|b bs]; [constructor|].
  destruct (py_max_greatest (id b) (map id bs) 0) as [_ H].
  change (id b :: map id bs) with (map id (b :: bs)) in H.
  rewrite Forall_forall in *. intros x Hx.
  specialize (H (id x) (in_map id _ _ Hx)). lia.
Qed.

Lemma generate_id_fresh (bs : list Book) : ~ In (generate_id bs) (ids bs).
Proof.
  unfold ids. intros H. apply in_map_iff in H. destruct H as [b [E Hb]].
  pose proof (generate_id_above bs) as Ha. rewrite Forall_forall in Ha.
  specialize (Ha b Hb). lia.
Qed.

(** After an append of a book with the generated id, the next id is one
    more. *)
Lemma generate_id_after_append (bs : list Book) (b : Book) :
  id b = generate_id bs -> generate_id (bs ++ [b]) = id b + 1.
Proof.
  intros E. unfold generate_id at 1. f_equal.
  apply py_max_unique.
  - rewrite map_app. apply in_or_app. right. now left.
  - rewrite map_app. apply Forall_app. split.
    + pose proof (generate_id_above bs) as Ha.
      rewrite Forall_forall in *. intros y Hy.
      apply in_map_iff in Hy. destruct Hy as [c [<- Hc]].
      specialize (Ha c Hc). lia.
    + constructor; [lia | constructor].
Qed.

Lemma existsb_id_In (book_id : Z) (bs : list Book) :
  existsb (fun book => id book =? book_id) bs = true <-> In book_id (ids bs).
Proof.
  unfold ids. rewrite existsb_exists, in_map_iff. split.
  - intros [b [Hb E]]. exists b. apply Z.eqb_eq in E. auto.
  - intros [b [E Hb]]. exists b. split; [auto | now apply Z.eqb_eq].
Qed.

Lemma ids_filter (book_id : Z) (bs : list Book) (x : Z) :
  In x (ids (filter (fun book => negb (id book =? book_id)) bs))
  <-> In x (ids bs) /\ x <> book_id.
Proof.
  unfold ids. rewrite !in_map_iff. split.
  - intros [b [E Hb]]. apply filter_In in Hb. destruct Hb as [Hb Hne].
    apply negb_true_iff, Z.eqb_neq in Hne. split; [exists b; auto | lia].
  - intros [[b [E Hb]] Hne]. exists b. split; [exact E|].
    apply filter_In. split; [exact Hb|].
    apply negb_true_iff, Z.eqb_neq. lia.
Qed.

(** A deletion that leaves a book with the largest id in place does not
    change the next id. *)
Lemma generate_id_filter (book_id : Z) (bs : list Book) :
  In book_id (ids bs) -> generate_id bs <> book_id + 1 ->
  generate_id (filter (fun book => negb (id book =? book_id)) bs)
  = generate_id bs.
Proof.
  intros Hin Hne. unfold generate_id in *. f_equal.
  destruct bs as [|b bs]; [contradiction|].
  destruct (py_max_greatest (id b) (map id bs) 0) as [Hm Hle].
  change (id b :: map id bs) with (ids (b :: bs)) in *.
  change (map id (b :: bs)) with (ids (b :: bs)) in *.
  apply py_max_unique.
  - apply ids_filter. split; [exact Hm | lia].
  - rewrite Forall_forall in *. intros y Hy.
    apply ids_filter in Hy. apply Hle, Hy.
Qed.

(** ** The loop of [change_status] *)

Lemma assign_status_none (bs : list Book) (book_id : Z) (st : string) :
  assign_status bs book_id st = None <-> ~ In book_id (ids bs).
Proof.
  induction bs as [|b bs IH]; simpl.
  - split; auto.
  - destruct (Z.eqb_spec (id b) book_id) as [E | N].
    + split; [discriminate | intros H; exfalso; apply H; now left].
    + destruct (assign_status bs book_id st) eqn:Ha; simpl.
      * split; [discriminate|]. intros H. exfalso.
        destruct IH as [_ IH]. assert (Hn : ~ In book_id (ids bs)) by tauto.
        specialize (IH Hn). discriminate.
      * split; [|reflexivity]. intros _ [H | H]; [contradiction|].
        destruct IH as [IH _]. now apply IH.
Qed.

Lemma assign_status_some (bs bs' : list Book) (book_id : Z) (st : string) :
  assign_status bs book_id st = Some bs' ->
  exists l1 b l2,
    bs = l1 ++ b :: l2 /\ id b = book_id /\ ~ In book_id (ids l1)
    /\ bs' = l1 ++ with_status b st :: l2.
Proof.
  revert bs'. induction bs as [|b bs IH]; simpl; intros bs' H.
  - discriminate.
  - destruct (Z.eqb_spec (id b) book_id) as [E | N].
    + inversion H; subst. exists [], b, bs. simpl. tauto.
    + destruct (assign_status bs book_id st) as [r|]; [|discriminate].
      inversion H; subst.
      destruct (IH r eq_refl) as [l1 [c [l2 [E1 [E2 [E3 E4]]]]]].
      exists (b :: l1), c, l2. subst. simpl. repeat split; auto.
      intros [F | F]; auto.
Qed.

Lemma assign_status_ids (bs bs' : list Book) (book_id : Z) (st : string) :
  assign_status bs book_id st = Some bs' -> ids bs' = ids bs.
Proof.
  intros H. apply assign_status_some in H.
  destruct H as [l1 [b [l2 [-> [_ [_ ->]]]]]].
  unfold ids. now rewrite !map_app.
Qed.

(** ** What one command does to the collection and to the console *)

Section Commands.

Variable json_dumps : json -> string.

(** Every command prints exactly one message. *)
Lemma exec_prints_once (c : command) (s : state) :
  exists e, console (env (exec json_dumps c s)) = console (env s) ++ [e].
Proof.
  destruct c as [t a y | book_id | book_id st]; simpl.
  - eexists; reflexivity.
  - unfold delete_book. destruct (negb _); eexists; reflexivity.
  - unfold change_status. destruct (negb _); [eexists; reflexivity|].
    destruct (assign_status _ _ _); eexists; reflexivity.
Qed.

Lemma delete_book_found (book_id : Z) (s : state) :
  In book_id (ids (books s)) ->
  delete_book json_dumps book_id s =
  let bs := filter (fun book => negb (id book =? book_id)) (books s) in
  mkState bs (print (Deleted book_id) (save_data json_dumps bs (env s))).
Proof.
  intros H. apply existsb_id_In in H. unfold delete_book. now rewrite H.
Qed.

Lemma delete_book_missing (book_id : Z) (s : state) :
  ~ In book_id (ids (books s)) ->
  delete_book json_dumps book_id s =
  mkState (books s) (print (NotFound book_id) (env s)).
Proof.
  intros H. unfold delete_book.
  destruct (existsb _ _) eqn:E; [|reflexivity].
  apply existsb_id_In in E. contradiction.
Qed.

Lemma change_status_ids (book_id : Z) (st : string) (s : state) :
  ids (books (change_status json_dumps book_id st s)) = ids (books s).
Proof.
  unfold change_status. destruct (negb _); [reflexivity|].
  destruct (assign_status _ _ _) eqn:E; [|reflexivity].
  simpl. now apply assign_status_ids in E.
Qed.

Lemma change_status_console (book_id : Z) (st : string) (s : state) :
  exists e, console (env (change_status json_dumps book_id st s))
            = console (env s) ++ [e]
            /\ added_ids [e] = [] /\ forall d, e <> Deleted d.
Proof.
  unfold change_status. destruct (negb _).
  - eexists; split; [reflexivity | split; [reflexivity | discriminate]].
  - destruct (assign_status _ _ _);
      (eexists; split; [reflexivity | split; [reflexivity | discriminate]]).
Qed.

Lemma run_app (cs1 cs2 : list command) (s : state) :
  run json_dumps (cs1 ++ cs2) s = run json_dumps cs2 (run json_dumps cs1 s).
Proof. apply fold_left_app. Qed.

Lemma added_ids_app (o1 o2 : list output) :
  added_ids (o1 ++ o2) = added_ids o1 ++ added_ids o2.
Proof. unfold added_ids. apply flat_map_app. Qed.

End Commands.

(** ** Sessions *)

Section Sessions.

Variable json_dumps : json -> string.

Lemma generate_id_ids (bs bs' : list Book) :
  ids bs = ids bs' -> generate_id bs = generate_id bs'.
Proof. unfold generate_id, ids. now intros ->. Qed.

(** What a command prints and what it does to the next id, when it does not
    take away a book with the largest id. *)
Lemma exec_step (c : command) (s : state) :
  top_kept json_dumps [c] s = true ->
  let g := generate_id (books s) in
  let g' := generate_id (books (exec json_dumps c s)) in
  exists e,
    console (env (exec json_dumps c s)) = console (env s) ++ [e]
    /\ ((exists t, e = Added t g /\ g' = g + 1)
        \/ (exists d, e = Deleted d /\ d < g /\ g' = g)
        \/ (added_ids [e] = [] /\ (forall d, e <> Deleted d) /\ g' = g)).
Proof.
  intros H g g'. subst g g'.
  destruct c as [t a y | book_id | book_id st].
  - exists (Added t (generate_id (books s))). split; [reflexivity|].
    left. exists t. split; [reflexivity|].
    simpl. now rewrite generate_id_after_append.
  - simpl in H. rewrite andb_true_r in H. apply negb_true_iff in H.
    unfold removes_top in H.
    destruct (existsb (fun book => id book =? book_id) (books s)) eqn:E.
    + simpl in H. apply Z.eqb_neq in H. apply existsb_id_In in E.
      exists (Deleted book_id). simpl. rewrite (delete_book_found _ _ _ E).
      split; [reflexivity|]. right. left. exists book_id.
      split; [reflexivity|]. simpl. split.
      * pose proof (generate_id_above (books s)) as Ha.
        rewrite Forall_forall in Ha. unfold ids in E.
        apply in_map_iff in E. destruct E as [b [<- Hb]]. now apply Ha.
      * now apply generate_id_filter.
    + exists (NotFound book_id). simpl. unfold delete_book. rewrite E. simpl.
      split; [reflexivity|]. right. right.
      split; [reflexivity | split; [discriminate | reflexivity]].
  - destruct (change_status_console json_dumps book_id st s)
      as [e [He [Ha Hd]]].
    exists e. split; [exact He|]. right. right.
    split; [exact Ha | split; [exact Hd|]].
    apply generate_id_ids, change_status_ids.
Qed.

Lemma NoDup_snoc (l : list Z) (x : Z) :
  NoDup l -> ~ In x l -> NoDup (l ++ [x]).
Proof.
  induction 1 as [|y l Hy Hl IH]; simpl; intros Hx.
  - constructor; [auto | constructor].
  - constructor.
    + intros Hin. apply in_app_or in Hin. destruct Hin as [? | [-> | []]]; tauto.
    + apply IH. tauto.
Qed.

Lemma NoDup_ids_filter (book_id : Z) (bs : list Book) :
  NoDup (ids bs) ->
  NoDup (ids (filter (fun book => negb (id book =? book_id)) bs)).
Proof.
  induction bs as [|b bs IH]; simpl; intros H; [constructor|].
  inversion H as [|x l Hx Hl]; subst.
  destruct (negb (id b =? book_id)); simpl; [|auto].
  constructor; [|auto]. intros Hin. apply ids_filter in Hin. tauto.
Qed.

Lemma exec_keeps_ids_distinct (c : command) (s : state) :
  NoDup (ids (books s)) -> NoDup (ids (books (exec json_dumps c s))).
Proof.
  intros H. destruct c as [t a y | book_id | book_id st]; simpl.
  - unfold ids. rewrite map_app. simpl.
    apply NoDup_snoc; [exact H | apply generate_id_fresh].
  - unfold delete_book. destruct (negb _); simpl; [exact H|].
    now apply NoDup_ids_filter.
  - now rewrite change_status_ids.
Qed.

End Sessions.

(** ** Identifier assignment *)

(** C1, amended: in a session whose deletions never take away a book that
    carries the largest id, the ids reported by [add_book] are strictly
    increasing (so pairwise distinct), none is below the id the catalogue
    would have generated at the start of the session, and no [add_book] that
    follows a deletion reports the deleted id. *)
Theorem added_ids_increase_while_top_kept
  (json_dumps : json -> string) (cs : list command) (s : state) :
  top_kept json_dumps cs s = true ->
  exists o,
    console (env (run json_dumps cs s)) = console (env s) ++ o
    /\ StronglySorted Z.lt (added_ids o)
    /\ Forall (fun i => generate_id (books s) <= i) (added_ids o)
    /\ forall o1 d o2, o = o1 ++ Deleted d :: o2 -> ~ In d (added_ids o2).
Proof.
  revert s. induction cs as [|c cs IH]; intros s H.
  - exists []. simpl. rewrite app_nil_r.
    repeat split; try constructor.
    intros o1 d o2 E. destruct o1; discriminate.
  - simpl in H. apply andb_true_iff in H. destruct H as [Hc Hcs].
    destruct (exec_step json_dumps c s) as [e [He Hcase]].
    { simpl. now rewrite andb_true_r. }
    destruct (IH _ Hcs) as [o [Ho [Hs [Hg Hd]]]].
    exists (e :: o). split.
    { change (run json_dumps (c :: cs) s)
        with (run json_dumps cs (exec json_dumps c s)).
      rewrite Ho, He, <- app_assoc. reflexivity. }
    assert (Hsplit : forall o1 d o2,
               e :: o = o1 ++ Deleted d :: o2 ->
               (o1 = [] /\ e = Deleted d /\ o2 = o)
               \/ exists o1', o = o1' ++ Deleted d :: o2).
    { intros [|e1 o1] d o2 E; simpl in E; inversion E; subst; eauto. }
    destruct Hcase as [[t [-> Hg']] | [[d [-> [Hlt Hg']]] | [Ha [Hn Hg']]]].
    + change (added_ids (Added t (generate_id (books s)) :: o))
        with (generate_id (books s) :: added_ids o).
      rewrite Hg' in Hg. split; [|split].
      * constructor; [exact Hs|].
        eapply Forall_impl; [|exact Hg]. simpl. intros; lia.
      * constructor; [lia|].
        eapply Forall_impl; [|exact Hg]. simpl. intros; lia.
      * intros o1 d o2 E.
        destruct (Hsplit _ _ _ E) as [[_ [F _]] | [o1' E']];
          [discriminate | eauto].
    + change (added_ids (Deleted d :: o)) with (added_ids o).
      rewrite Hg' in Hg. split; [exact Hs | split; [exact Hg|]].
      intros o1 d0 o2 E.
      destruct (Hsplit _ _ _ E) as [[_ [F ->]] | [o1' E']]; [|eauto].
      inversion F; subst d0. intros Hin.
      rewrite Forall_forall in Hg. specialize (Hg _ Hin). lia.
    + change (e :: o) with ([e] ++ o). rewrite added_ids_app, Ha. simpl. rewrite Hg' in Hg.
      split; [exact Hs | split; [exact Hg|]].
      intros o1 d o2 E.
      destruct (Hsplit _ _ _ E) as [[_ [F _]] | [o1' E']]; [|eauto].
      exfalso. exact (Hn _ F).
Qed.

Lemma added_ids_increase_while_top_kept_witness :
  top_kept Codec.dumps keeping_session empty_library = true
  /\ exists o,
       console (env (run Codec.dumps keeping_session empty_library))
       = console (env empty_library) ++ o
       /\ StronglySorted Z.lt (added_ids o)
       /\ Forall (fun i => generate_id (books empty_library) <= i) (added_ids o)
       /\ forall o1 d o2, o = o1 ++ Deleted d :: o2 -> ~ In d (added_ids o2).
Proof.
  split; [reflexivity|].
  apply (added_ids_increase_while_top_kept Codec.dumps keeping_session
           empty_library).
  reflexivity.
Defined.

(** C1 as stated fails: add, delete that book, add again reports the id 1
    twice, so the reported ids are neither strictly increasing nor distinct,
    and the id of the deleted book is reused. *)
Lemma deleted_top_id_is_reused :
  let o := console (env (run Codec.dumps reusing_session empty_library)) in
  o = [Added "Dune" 1; Deleted 1; Added "Emma" 1]
  /\ ~ StronglySorted Z.lt (added_ids o)
  /\ ~ NoDup (added_ids o).
Proof.
  assert (E : console (env (run Codec.dumps reusing_session empty_library))
              = [Added "Dune" 1; Deleted 1; Added "Emma" 1])
    by (vm_compute; reflexivity).
  cbv zeta. rewrite E. split; [reflexivity|]. simpl. split; intros H.
  - inversion H as [|x l _ Hall]; subst.
    inversion Hall as [|y l' Hlt _]; subst. lia.
  - inversion H as [|x l Hin _]; subst. apply Hin. now left.
Qed.

(** C4: [generate_id] is 1 on an empty collection and one more than the
    greatest id otherwise; so once the only book, of id 1, is deleted, the
    next [add_book] assigns (and reports) id 1 again. *)
Theorem generate_id_is_max_plus_one (json_dumps : json -> string) :
  generate_id [] = 1
  /\ (forall b bs,
        exists m, In m (ids (b :: bs))
                  /\ Forall (fun x => x <= m) (ids (b :: bs))
                  /\ generate_id (b :: bs) = 1 + m)
  /\ (forall t0 a0 y0 st0 w t a y,
        let s := delete_book json_dumps 1
                   (mkState [mkBook 1 t0 a0 y0 st0] w) in
        books s = []
        /\ books (add_book json_dumps t a y s) = [Book_init 1 t a y]
        /\ console (env (add_book json_dumps t a y s))
           = console (env s) ++ [Added t 1]).
Proof.
  split; [reflexivity | split].
  - intros b bs. exists (py_max (ids (b :: bs)) 0).
    destruct (py_max_greatest (id b) (map id bs) 0) as [Hin Hle].
    repeat split; [exact Hin | exact Hle | unfold generate_id, ids; lia].
  - intros. subst s. repeat split.
Qed.

(** C9: pairwise distinct ids are kept by every session of [add_book],
    [delete_book] and [change_status] calls. *)
Theorem ids_stay_distinct
  (json_dumps : json -> string) (cs : list command) (s : state) :
  NoDup (ids (books s)) -> NoDup (ids (books (run json_dumps cs s))).
Proof.
  revert s. induction cs as [|c cs IH]; intros s H; [exact H|].
  apply IH, exec_keeps_ids_distinct, H.
Qed.

Lemma ids_stay_distinct_witness :
  NoDup (ids (books empty_library))
  /\ NoDup (ids (books (run Codec.dumps keeping_session empty_library))).
Proof.
  split; [constructor|].
  apply (ids_stay_distinct Codec.dumps keeping_session empty_library).
  constructor.
Defined.

(** ** What is written can be read

    The value [save_data] hands to [json.dump] is one that the comprehension
    of [load_data] turns back into the collection, book by book. *)

Lemma Book_of_kwargs_to_dict (b : Book) : Book_of_kwargs (to_dict b) = Ok b.
Proof. now destruct b. Qed.

Lemma books_of_json_document (bs : list Book) :
  books_of_json (document bs) = Ok bs.
Proof.
  unfold document. simpl. induction bs as [|b bs IH]; [reflexivity|].
  cbn [map map_result Book_of_json]. rewrite Book_of_kwargs_to_dict.
  cbn [bind]. now rewrite IH.
Qed.

(** ** Adding, deleting, listing *)

Lemma print_books_spec (bs : list Book) (w : world) :
  print_books bs w
  = mkWorld (disk w) (writes w)
            (console w ++ map (fun book => PrintedBook (to_dict book)) bs).
Proof.
  unfold print_books. revert w. induction bs as [|b bs IH]; intros w; simpl.
  - rewrite app_nil_r. now destruct w.
  - rewrite IH. simpl. now rewrite <- app_assoc.
Qed.

Lemma filter_absent_id (book_id : Z) (bs : list Book) :
  ~ In book_id (ids bs) ->
  filter (fun book => negb (id book =? book_id)) bs = bs.
Proof.
  induction bs as [|b bs IH]; simpl; intros H; [reflexivity|].
  destruct (Z.eqb_spec (id b) book_id) as [E | N]; simpl.
  - exfalso. apply H. now left.
  - f_equal. apply IH. tauto.
Qed.

(** With distinct ids the filter of [delete_book] takes out one book. *)
Lemma filter_single_id (book_id : Z) (bs : list Book) :
  NoDup (ids bs) -> In book_id (ids bs) ->
  exists l1 b l2,
    bs = l1 ++ b :: l2 /\ id b = book_id
    /\ filter (fun book => negb (id book =? book_id)) bs = l1 ++ l2.
Proof.
  induction bs as [|b bs IH]; simpl; intros Hnd Hin; [contradiction|].
  inversion Hnd as [|x l Hx Hl]; subst.
  destruct (Z.eqb_spec (id b) book_id) as [E | N]; simpl.
  - exists [], b, bs. simpl. repeat split; [exact E|].
    apply filter_absent_id. now rewrite <- E.
  - destruct Hin as [? | Hin]; [contradiction|].
    destruct (IH Hl Hin) as [l1 [c [l2 [E1 [E2 E3]]]]].
    exists (b :: l1), c, l2. simpl. rewrite E3. subst. tauto.
Qed.

Section Search.

Variable lower : string -> string.

Lemma search_results_incl (bs : list Book) (query field : string)
  (r : list Book) :
  search_results lower bs query field = Ok r -> incl r bs.
Proof.
  revert r. induction bs as [|b bs IH]; simpl; intros r H.
  - inversion H. apply incl_nil_l.
  - destruct (getattr b field) as [[z | text]|]; simpl in H; try discriminate.
    destruct (search_results lower bs query field) as [rest|]; simpl in H;
      [|discriminate].
    inversion H; subst. specialize (IH rest eq_refl).
    destruct (str_in _ _).
    + apply incl_cons; [now left | now apply incl_tl].
    + now apply incl_tl.
Qed.

End Search.

(** C6: [add_book] builds a book with the generated id, which is above every
    id of the collection, and the default status, appends it, writes to the
    file, once, the document of the whole new collection (one that decodes to
    that collection book by book) and reports the new id; on a library opened
    on a missing or empty file, adding Dune gives the book of id 1, in
    stock. *)
Theorem add_book_appends_fresh_book
  (json_dumps : json -> string) (json_loads : string -> loaded)
  (t a : string) (y : Z) (s : state) :
  let new_book := mkBook (generate_id (books s)) t a y in_stock in
  let s' := add_book json_dumps t a y s in
  books s' = books s ++ [new_book]
  /\ Forall (fun book => id book < id new_book) (books s)
  /\ disk (env s') = Some (json_dumps (document (books s')))
  /\ books_of_json (document (books s')) = Ok (books s')
  /\ writes (env s') = S (writes (env s))
  /\ console (env s') = console (env s) ++ [Added t (id new_book)]
  /\ (forall w, disk w = None \/ disk w = Some EmptyString ->
        exists s0,
          Library_init json_loads w = Ok s0 /\ books s0 = []
          /\ books (add_book json_dumps "Dune" "Herbert" 1965 s0)
             = [mkBook 1 "Dune" "Herbert" 1965 "в наличии"]
          /\ console (env (add_book json_dumps "Dune" "Herbert" 1965 s0))
             = console (env s0) ++ [Added "Dune" 1]).
Proof.
  cbv zeta. repeat split.
  - apply generate_id_above.
  - apply books_of_json_document.
  - intros w Hw. exists (mkState [] (print FileMissingOrEmpty w)).
    unfold Library_init, load_data.
    destruct Hw as [-> | ->]; repeat split.
Qed.

Lemma add_book_appends_fresh_book_witness :
  (disk fresh_world = None \/ disk fresh_world = Some EmptyString)
  /\ exists s0,
       Library_init Codec.load fresh_world = Ok s0 /\ books s0 = []
       /\ books (add_book Codec.dumps "Dune" "Herbert" 1965 s0)
          = [mkBook 1 "Dune" "Herbert" 1965 "в наличии"]
       /\ console (env (add_book Codec.dumps "Dune" "Herbert" 1965 s0))
          = console (env s0) ++ [Added "Dune" 1].
Proof.
  split; [left; reflexivity|].
  apply (add_book_appends_fresh_book Codec.dumps Codec.load
           "Dune" "Herbert" 1965 empty_library).
  left. reflexivity.
Defined.

(** C7: [delete_book] on an id no book has reports it, leaves the collection
    and the file alone and opens nothing for writing; on an id of the
    collection it drops the books of that id and keeps the others in order
    (one book goes when ids are distinct), writes to the file, once, the
    document of what is left (one that decodes to exactly those books), and
    afterwards neither the listing nor any search shows a book of that id. *)
Theorem delete_book_removes_or_reports
  (json_dumps : json -> string) (lower : string -> string)
  (book_id : Z) (s : state) :
  let s' := delete_book json_dumps book_id s in
  (~ In book_id (ids (books s)) ->
     books s' = books s
     /\ disk (env s') = disk (env s)
     /\ writes (env s') = writes (env s)
     /\ console (env s') = console (env s) ++ [NotFound book_id])
  /\ (In book_id (ids (books s)) ->
        books s' = filter (fun book => negb (id book =? book_id)) (books s)
        /\ (NoDup (ids (books s)) ->
              exists l1 b l2,
                books s = l1 ++ b :: l2 /\ id b = book_id
                /\ books s' = l1 ++ l2)
        /\ disk (env s') = Some (json_dumps (document (books s')))
        /\ books_of_json (document (books s')) = Ok (books s')
        /\ writes (env s') = S (writes (env s))
        /\ console (env s') = console (env s) ++ [Deleted book_id]
        /\ ~ In book_id (ids (books s'))
        /\ console (env (display_books s'))
           = console (env s')
             ++ match books s' with
                | [] => [NoBooks]
                | shown => map (fun book => PrintedBook (to_dict book)) shown
                end
        /\ Forall (fun book => id book <> book_id) (books s')
        /\ (forall query field r,
              search_results lower (books s') query field = Ok r ->
              Forall (fun book => id book <> book_id) r)).
Proof.
  cbv zeta. split; intros H.
  - rewrite (delete_book_missing _ _ _ H). repeat split.
  - rewrite (delete_book_found _ _ _ H). cbv zeta. simpl.
    assert (Hgone : Forall (fun book => id book <> book_id)
                      (filter (fun book => negb (id book =? book_id))
                              (books s))).
    { rewrite Forall_forall. intros b Hb. apply filter_In in Hb.
      destruct Hb as [_ Hb]. now apply negb_true_iff, Z.eqb_neq in Hb. }
    split; [reflexivity|]. split.
    { intros Hnd. now apply filter_single_id. }
    split; [reflexivity|]. split; [apply books_of_json_document|].
    split; [reflexivity|]. split; [reflexivity|].
    split. { intros F. apply ids_filter in F. tauto. }
    split; [|split; [exact Hgone|]].
    + unfold display_books. simpl.
      destruct (filter _ _) eqn:E; [reflexivity|].
      simpl books. rewrite print_books_spec. reflexivity.
    + intros query field r Hr. apply search_results_incl in Hr.
      rewrite Forall_forall in *. intros b Hb. apply Hgone, Hr, Hb.
Qed.

Lemma delete_book_removes_or_reports_witness :
  let s' := delete_book Codec.dumps 1 two_books in
  let s'' := delete_book Codec.dumps 1 s' in
  (In 1 (ids (books two_books)) /\ books s' = [foundation]
   /\ ~ In 1 (ids (books s')))
  /\ (~ In 1 (ids (books s')) /\ books s'' = books s'
      /\ writes (env s'') = writes (env s')).
Proof.
  cbv zeta. split.
  - destruct (proj2 (delete_book_removes_or_reports Codec.dumps ascii_lower
                       1 two_books)) as [E [_ [_ [_ [_ [_ [N _]]]]]]].
    + left. reflexivity.
    + split; [left; reflexivity|]. split; [exact E | exact N].
  - assert (N : ~ In 1 (ids (books (delete_book Codec.dumps 1 two_books)))).
    { simpl. intros [F | []]. discriminate. }
    destruct (proj1 (delete_book_removes_or_reports Codec.dumps ascii_lower
                       1 (delete_book Codec.dumps 1 two_books)) N)
      as [E [_ [W _]]].
    split; [exact N|]. split; [exact E | exact W].
Defined.

(** ** Changing the status *)

Lemma legal_status_spec (st : string) :
  legal_status st = true <-> st = "в наличии" \/ st = "выдана".
Proof.
  unfold legal_status. simpl. rewrite !orb_true_iff, !String.eqb_eq.
  unfold in_stock, lent_out. intuition discriminate.
Qed.

(** C8: [change_status] with a status other than the two legal ones, or
    with an id no book has, leaves collection and file alone and opens
    nothing for writing; otherwise the first book of that id (the only one
    when ids are distinct) is replaced by the book with the same id, title,
    author and year and the new status, every other book stays, and the
    document of the collection (one that decodes to it) is written once.  So
    either both the mutation and the write happen, or neither. *)
Theorem change_status_all_or_nothing
  (json_dumps : json -> string) (book_id : Z) (new_status : string)
  (s : state) :
  let s' := change_status json_dumps book_id new_status s in
  (legal_status new_status = true
   <-> new_status = "в наличии" \/ new_status = "выдана")
  /\ (legal_status new_status = false ->
        books s' = books s /\ disk (env s') = disk (env s)
        /\ writes (env s') = writes (env s)
        /\ console (env s') = console (env s) ++ [BadStatus])
  /\ (legal_status new_status = true -> ~ In book_id (ids (books s)) ->
        books s' = books s /\ disk (env s') = disk (env s)
        /\ writes (env s') = writes (env s)
        /\ console (env s') = console (env s) ++ [NotFound book_id])
  /\ (legal_status new_status = true -> In book_id (ids (books s)) ->
        (exists l1 b l2,
            books s = l1 ++ b :: l2 /\ id b = book_id
            /\ ~ In book_id (ids l1)
            /\ books s'
               = l1 ++ mkBook (id b) (title b) (author b) (year b) new_status
                    :: l2)
        /\ disk (env s') = Some (json_dumps (document (books s')))
        /\ books_of_json (document (books s')) = Ok (books s')
        /\ writes (env s') = S (writes (env s))
        /\ console (env s')
           = console (env s) ++ [StatusChanged book_id new_status])
  /\ ((books s' = books s /\ disk (env s') = disk (env s)
       /\ writes (env s') = writes (env s))
      \/ (disk (env s') = Some (json_dumps (document (books s')))
          /\ books_of_json (document (books s')) = Ok (books s')
          /\ writes (env s') = S (writes (env s)))).
Proof.
  cbv zeta. split; [apply legal_status_spec|].
  unfold change_status.
  destruct (legal_status new_status) eqn:L; simpl.
  - destruct (assign_status (books s) book_id new_status) as [bs|] eqn:A.
    + assert (Hin : In book_id (ids (books s))).
      { destruct (in_dec Z.eq_dec book_id (ids (books s))) as [I | N];
          [exact I|].
        apply (assign_status_none _ _ new_status) in N. congruence. }
      pose proof (books_of_json_document bs) as Dec.
      split; [discriminate|]. split; [tauto|]. split; [|right; tauto].
      intros _ _. split; [|tauto]. now apply assign_status_some.
    + assert (Hn : ~ In book_id (ids (books s)))
        by now apply (assign_status_none _ _ new_status).
      split; [discriminate|]. split; [tauto|]. split; [tauto | left; tauto].
  - split; [tauto|]. split; [discriminate|]. split; [discriminate|].
    left; tauto.
Qed.

Lemma change_status_all_or_nothing_witness :
  let s' := change_status Codec.dumps 2 lent_out two_books in
  (legal_status lent_out = true /\ In 2 (ids (books two_books))
   /\ writes (env s') = S (writes (env two_books))
   /\ exists l1 b l2,
        books two_books = l1 ++ b :: l2 /\ id b = 2 /\ ~ In 2 (ids l1)
        /\ books s'
           = l1 ++ mkBook (id b) (title b) (author b) (year b) lent_out :: l2)
  /\ (legal_status "lost" = false
      /\ books (change_status Codec.dumps 2 "lost" two_books)
         = books two_books)
  /\ (~ In 7 (ids (books two_books))
      /\ books (change_status Codec.dumps 7 lent_out two_books)
         = books two_books).
Proof.
  cbv zeta. split; [|split].
  - destruct (change_status_all_or_nothing Codec.dumps 2 lent_out two_books)
      as [_ [_ [_ [H _]]]].
    destruct H as [D [_ [_ [W _]]]]; [reflexivity | right; left; reflexivity|].
    split; [reflexivity|]. split; [right; left; reflexivity|].
    split; [exact W | exact D].
  - destruct (change_status_all_or_nothing Codec.dumps 2 "lost" two_books)
      as [_ [H _]].
    destruct H as [E _]; [reflexivity|]. split; [reflexivity | exact E].
  - assert (N : ~ In 7 (ids (books two_books))).
    { simpl. intros [F | [F | []]]; discriminate. }
    destruct (change_status_all_or_nothing Codec.dumps 7 lent_out two_books)
      as [_ [_ [H _]]].
    destruct H as [E _]; [reflexivity | exact N|]. split; [exact N | exact E].
Defined.

(** C10: with a status outside the legal set and an id no book has,
    [change_status] reports the bad status, not the missing book, and leaves
    collection and file alone without opening the file for writing. *)
Theorem change_status_checks_status_first
  (json_dumps : json -> string) (book_id : Z) (new_status : string)
  (s : state) :
  legal_status new_status = false -> ~ In book_id (ids (books s)) ->
  let s' := change_status json_dumps book_id new_status s in
  console (env s') = console (env s) ++ [BadStatus]
  /\ BadStatus <> NotFound book_id
  /\ books s' = books s
  /\ disk (env s') = disk (env s)
  /\ writes (env s') = writes (env s).
Proof.
  intros L _. cbv zeta. unfold change_status. rewrite L. simpl.
  repeat split. discriminate.
Qed.

Lemma change_status_checks_status_first_witness :
  legal_status "lost" = false /\ ~ In 7 (ids (books two_books))
  /\ console (env (change_status Codec.dumps 7 "lost" two_books))
     = console (env two_books) ++ [BadStatus].
Proof.
  assert (N : ~ In 7 (ids (books two_books))).
  { simpl. intros [F | [F | []]]; discriminate. }
  split; [reflexivity|]. split; [exact N|].
  apply (change_status_checks_status_first Codec.dumps 7 "lost" two_books);
    [reflexivity | exact N].
Defined.

(** ** Searching *)

Lemma prefix_spec (q s : string) :
  String.prefix q s = true <-> exists post, s = (q ++ post)%string.
Proof.
  revert s. induction q as [|c q IH]; intros s.
  - split; [intros _; now exists s | intros _; now destruct s].
  - destruct s as [|c' s]; simpl.
    + split; [discriminate | intros [post E]; discriminate].
    + destruct (Ascii.ascii_dec c c') as [-> | N].
      * rewrite IH. split; intros [post E]; exists post; congruence.
      * split; [discriminate | intros [post E]; congruence].
Qed.

(** [str_in] is containment: the needle occurs somewhere in the hay. *)
Lemma str_in_spec (q s : string) :
  str_in q s = true <-> exists pre post, s = (pre ++ q ++ post)%string.
Proof.
  induction s as [|c s IH].
  - cbn [str_in]. rewrite orb_false_r, prefix_spec. split.
    + intros [post E]. now exists EmptyString, post.
    + intros [[|c pre] [post E]]; [now exists post | discriminate].
  - cbn [str_in]. rewrite orb_true_iff, prefix_spec, IH. split.
    + intros [[post E] | [pre [post E]]].
      * now exists EmptyString, post.
      * exists (String c pre), post. simpl. now rewrite E.
    + intros [[|c' pre] [post E]].
      * left. now exists post.
      * right. exists pre, post. simpl in E. congruence.
Qed.

Section SearchFields.

Variable lower : string -> string.

(** On [title] and [author] the comprehension keeps, in order, the books
    whose field contains the query, both lowered. *)
Lemma search_results_text (bs : list Book) (query : string) :
  search_results lower bs query "title"
  = Ok (filter (fun book => str_in (lower query) (lower (title book))) bs)
  /\ search_results lower bs query "author"
     = Ok (filter (fun book => str_in (lower query) (lower (author book))) bs).
Proof.
  induction bs as [|b bs [IHt IHa]]; [split; reflexivity|].
  split; cbn [search_results filter];
    [rewrite IHt | rewrite IHa]; simpl; now destruct (str_in _ _).
Qed.

(** C2, the failing case: on [year] the comprehension calls [lower] on an
    [int], so as soon as there is a book the search raises [AttributeError]
    and shows nothing, whatever the query. *)
Theorem search_by_year_raises
  (query : string) (b : Book) (bs : list Book) (w : world) :
  search_results lower (b :: bs) query "year" = Raise AttributeError
  /\ search_books lower query "year" (mkState (b :: bs) w)
     = Raise AttributeError.
Proof. split; reflexivity. Qed.

End SearchFields.

Lemma search_scenario :
  search_results ascii_lower [dune; foundation] "dune" "title" = Ok [dune]
  /\ search_results ascii_lower [dune; foundation] "xyz" "title" = Ok []
  /\ search_results ascii_lower [dune; foundation] "1965" "year"
     = Raise AttributeError.
Proof. repeat split. Qed.

(** ** Loading and saving *)

Section Store.

Variable json_dumps : json -> string.
Variable json_loads : string -> loaded.

(** A file that is JSON is handed to the comprehension as it is, and what
    the comprehension raises is not caught. *)
Lemma load_data_parsed (w : world) (text : string) (data : json) :
  disk w = Some text -> String.length text <> 0%nat ->
  json_loads text = Parsed data ->
  load_data json_loads w = (books_of_json data, w).
Proof.
  intros D L P. unfold load_data. rewrite D.
  destruct (Nat.eqb_spec (String.length text) 0); [contradiction|].
  now rewrite P.
Qed.

(** What [json.load] raises apart from [JSONDecodeError] is not caught:
    [load_data] raises it and prints nothing. *)
Lemma load_data_lets_other_errors_through
  (w : world) (text : string) (e : exn) :
  disk w = Some text -> String.length text <> 0%nat ->
  json_loads text = LoadError e ->
  load_data json_loads w = (Raise e, w).
Proof.
  intros D L P. unfold load_data. rewrite D.
  destruct (Nat.eqb_spec (String.length text) 0); [contradiction|].
  now rewrite P.
Qed.

(** C3, amended: on a missing file or one of length zero [load_data]
    returns the empty list and says so; on a file of positive length on
    which [json.load] raises [JSONDecodeError] it returns the empty list too,
    raises nothing and prints the other message, that the file is damaged. *)
Theorem load_data_empty_on_missing_or_corrupt (w : world) :
  (disk w = None
   \/ (exists text, disk w = Some text /\ String.length text = 0%nat) ->
   load_data json_loads w = (Ok [], print FileMissingOrEmpty w))
  /\ (forall text,
        disk w = Some text -> String.length text <> 0%nat ->
        json_loads text = JSONDecodeError ->
        load_data json_loads w = (Ok [], print FileCorrupt w))
  /\ FileCorrupt <> FileMissingOrEmpty.
Proof.
  unfold load_data. split; [|split; [|discriminate]].
  - intros [-> | [text [-> L]]]; [reflexivity|]. now rewrite L.
  - intros text -> L P.
    destruct (Nat.eqb_spec (String.length text) 0); [contradiction|].
    now rewrite P.
Qed.

(** C5: when [json.load] reads back the document [json.dump] wrote for a
    collection, [load_data] after [save_data] returns that collection: the
    same books in the same order with the same fields, nothing printed. *)
Theorem save_then_load_roundtrip (bs : list Book) (w : world) :
  String.length (json_dumps (document bs)) <> 0%nat ->
  json_loads (json_dumps (document bs)) = Parsed (document bs) ->
  load_data json_loads (save_data json_dumps bs w)
  = (Ok bs, save_data json_dumps bs w).
Proof.
  intros L P.
  rewrite (load_data_parsed _ (json_dumps (document bs)) (document bs));
    [|reflexivity | exact L | exact P].
  now rewrite books_of_json_document.
Qed.

End Store.

Lemma load_data_empty_on_missing_or_corrupt_witness :
  ((disk fresh_world = None
    \/ exists text, disk fresh_world = Some text
                    /\ String.length text = 0%nat)
   /\ load_data Codec.load fresh_world
      = (Ok [], print FileMissingOrEmpty fresh_world))
  /\ (disk torn_world = Some "[1, 2"
      /\ String.length "[1, 2" <> 0%nat
      /\ Codec.load "[1, 2" = JSONDecodeError
      /\ load_data Codec.load torn_world
         = (Ok [], print FileCorrupt torn_world)).
Proof.
  split.
  - split; [left; reflexivity|].
    apply (proj1 (load_data_empty_on_missing_or_corrupt Codec.load
                    fresh_world)).
    left. reflexivity.
  - split; [reflexivity|]. split; [discriminate|]. split; [reflexivity|].
    apply (proj1 (proj2 (load_data_empty_on_missing_or_corrupt Codec.load
                           torn_world)) "[1, 2");
      [reflexivity | discriminate | reflexivity].
Defined.

(** C3 as stated fails: a file that is there, is not empty and holds JSON
    that is no list of book records (here a list of two numbers) is not in
    the expected format, and [load_data] raises [TypeError] where the claim
    has it return the empty list: only [JSONDecodeError] is caught. *)
Lemma load_data_raises_on_numbers :
  disk numbers_world = Some "[1, 2]"
  /\ String.length "[1, 2]" <> 0%nat
  /\ Codec.load "[1, 2]" = Parsed (JList [JInt 1; JInt 2])
  /\ load_data Codec.load numbers_world = (Raise TypeError, numbers_world)
  /\ fst (load_data Codec.load numbers_world) <> Ok [].
Proof.
  split; [reflexivity|]. split; [discriminate|]. split; [reflexivity|].
  split; [reflexivity | discriminate].
Qed.

Lemma save_then_load_roundtrip_witness :
  String.length (Codec.dumps (document [dune; foundation])) <> 0%nat
  /\ Codec.load (Codec.dumps (document [dune; foundation]))
     = Parsed (document [dune; foundation])
  /\ load_data Codec.load (save_data Codec.dumps [dune; foundation] fresh_world)
     = (Ok [dune; foundation],
        save_data Codec.dumps [dune; foundation] fresh_world).
Proof.
  assert (L : String.length (Codec.dumps (document [dune; foundation]))
              <> 0%nat) by (vm_compute; discriminate).
  assert (P : Codec.load (Codec.dumps (document [dune; foundation]))
              = Parsed (document [dune; foundation])) by (vm_compute; reflexivity).
  split; [exact L|]. split; [exact P|].
  apply (save_then_load_roundtrip Codec.dumps Codec.load
           [dune; foundation] fresh_world L P).
Defined.

(** ** The codec reads back the documents it prints

    The hypotheses of the round trip hold of the codec above for every
    collection, so with it loading after saving returns the collection. *)

Module CodecFacts.

Import Codec.

Lemma string_app_assoc (a b c : string) : ((a ++ b) ++ c = a ++ (b ++ c))%string.
Proof. induction a as [|x a IH]; simpl; [reflexivity | now rewrite IH]. Qed.

Lemma string_app_length (a b : string) :
  String.length (a ++ b)%string = (String.length a + String.length b)%nat.
Proof. induction a as [|x a IH]; simpl; [reflexivity | now rewrite IH]. Qed.

Lemma skip_ws_indent (k : nat) (s : string) :
  skip_ws (indent k ++ s)%string = skip_ws s.
Proof. induction k as [|k IH]; [reflexivity | exact IH]. Qed.

Lemma skip_ws_nl (k : nat) (s : string) :
  skip_ws (nl k ++ s)%string = skip_ws s.
Proof. apply skip_ws_indent. Qed.

Lemma read_string_escape_char (c : ascii) (tail : string) :
  read_string (escape_char c ++ tail)%string
  = match read_string tail with
    | Some (u, r) => Some (String c u, r)
    | None => None
    end.
Proof.
  destruct c as [[] [] [] [] [] [] [] []]; reflexivity.
Qed.

Lemma read_string_quoted (s rest : string) :
  read_string (escape s ++ String dq rest)%string
  = Some (s, rest).
Proof.
  induction s as [|c s IH]; [reflexivity|].
  cbn [escape]. rewrite string_app_assoc, read_string_escape_char.
  now rewrite IH.
Qed.

Lemma read_digits_uint (d : Decimal.uint) (acc : positive) (rest : string) :
  (forall a, read_digits a rest = (a, rest)) ->
  read_digits (Z.pos acc) (NilEmpty.string_of_uint d ++ rest)%string
  = (Z.pos (Pos.of_uint_acc d acc), rest).
Proof.
  intros Hrest. revert acc.
  induction d as [|d IH|d IH|d IH|d IH|d IH|d IH|d IH|d IH|d IH|d IH];
    intros acc; [apply Hrest | ..];
    cbn [NilEmpty.string_of_uint append read_digits];
    match goal with
    | |- context [digit_of ?c] =>
        let v := eval vm_compute in (digit_of c) in
        change (digit_of c) with v
    end; cbv iota; cbn [Pos.of_uint_acc]; rewrite <- IH; f_equal; lia.
Qed.

Lemma to_uint_head (p : positive) :
  Pos.to_uint p <> Decimal.Nil
  /\ forall l, Pos.to_uint p <> Decimal.D0 l.
Proof.
  split; [apply DecimalPos.Unsigned.to_uint_nonnil|]. intros l E.
  pose proof (DecimalPos.Unsigned.to_of (Pos.to_uint p)) as H.
  rewrite DecimalPos.Unsigned.of_to in H. simpl in H. rewrite E in H.
  rewrite DecimalFacts.unorm_D0 in H. unfold Decimal.unorm in H.
  destruct (Decimal.nzhead l) eqn:N; try discriminate.
  - apply (DecimalPos.Unsigned.to_uint_nonzero p). rewrite E. exact H.
  - inversion H; subst. exact (DecimalFacts.nzhead_nonzero _ _ N).
Qed.

Lemma read_natural_to_uint (p : positive) (rest : string) :
  (forall a, read_digits a rest = (a, rest)) ->
  starts_fraction rest = false ->
  read_natural (NilEmpty.string_of_uint (Pos.to_uint p) ++ rest)%string
  = Some (Z.pos p, rest).
Proof.
  intros Hd Hf.
  pose proof (DecimalPos.Unsigned.of_to p) as E.
  destruct (to_uint_head p) as [Hnil Hzero].
  destruct (Pos.to_uint p) as [|d|d|d|d|d|d|d|d|d|d];
    [contradiction | exfalso; exact (Hzero d eq_refl) | ..];
    cbn [NilEmpty.string_of_uint append read_natural];
    match goal with
    | |- context [digit_of ?c] =>
        let v := eval vm_compute in (digit_of c) in
        change (digit_of c) with v
    end; cbv iota;
    rewrite read_digits_uint by exact Hd; rewrite Hf;
    simpl in E; inversion E; reflexivity.
Qed.

Lemma read_number_dump_int (z : Z) (rest : string) :
  (forall a, read_digits a rest = (a, rest)) ->
  starts_fraction rest = false ->
  read_number (dump_int z ++ rest)%string = Some (JInt z, rest).
Proof.
  intros Hd Hf. unfold dump_int.
  destruct z as [|p|p]; simpl Z.to_int.
  - simpl. now rewrite Hf.
  - pose proof (read_natural_to_uint p rest Hd Hf) as H.
    destruct (to_uint_head p) as [Hnil Hzero].
    unfold NilZero.string_of_int, NilZero.string_of_uint.
    destruct (Pos.to_uint p) as [|d|d|d|d|d|d|d|d|d|d];
      [contradiction | exfalso; exact (Hzero d eq_refl) | ..];
      cbn [NilEmpty.string_of_uint append] in *;
      unfold read_number;
      match goal with
      | |- context [Ascii.eqb ?c ?m] =>
          let v := eval vm_compute in (Ascii.eqb c m) in
          change (Ascii.eqb c m) with v
      end; cbv iota; rewrite H; reflexivity.
  - pose proof (read_natural_to_uint p rest Hd Hf) as H.
    destruct (to_uint_head p) as [Hnil Hzero].
    unfold NilZero.string_of_int, NilZero.string_of_uint.
    destruct (Pos.to_uint p) as [|d|d|d|d|d|d|d|d|d|d];
      [contradiction | ..];
      cbn [NilEmpty.string_of_uint append] in *;
      unfold read_number;
      change (Ascii.eqb "-" "-") with true; cbv iota; rewrite H; reflexivity.
Qed.


Lemma parse_value_open_object (f : nat) (k : nat) (key s : string) :
  parse_value (S f) ("{" ++ nl k ++ quote key ++ s)%string
  = match parse_members f (quote key ++ s)%string with
    | Some (kv, r) => Some (JObj (make_dict kv), r)
    | None => None
    end.
Proof.
  change ("{" ++ nl k ++ quote key ++ s)%string
    with (String "{" (nl k ++ quote key ++ s)%string).
  cbn [parse_value]. 
  change (skip_ws (String "{" (nl k ++ quote key ++ s)%string)) with (String "{" (nl k ++ quote key ++ s)%string).
  cbv iota.
  change (Ascii.eqb "{" dq) with false.
  change (Ascii.eqb "{" "[") with false.
  change (Ascii.eqb "{" "{") with true.
  cbv iota.
  rewrite skip_ws_nl.
  reflexivity.
Qed.

Lemma quote_append (s rest : string) :
  (quote s ++ rest)%string = String dq (escape s ++ String dq rest)%string.
Proof. unfold quote. cbn [append]. now rewrite string_app_assoc. Qed.

Lemma parse_members_step (f : nat) (w key s : string) :
  (forall x, skip_ws (w ++ x)%string = skip_ws x) ->
  parse_members (S f) (w ++ quote key ++ ": " ++ s)%string
  = match parse_value f (" " ++ s)%string with
    | Some (v, r3) =>
        match skip_ws r3 with
        | String c r4 =>
            if Ascii.eqb c "," then
              match parse_members f r4 with
              | Some (kv, r5) => Some ((key, v) :: kv, r5)
              | None => None
              end
            else if Ascii.eqb c "}" then Some ([(key, v)], r4)
            else None
        | EmptyString => None
        end
    | None => None
    end.
Proof.
  intros Hw. cbn [parse_members]. rewrite Hw, quote_append.
  cbn [skip_ws]. change (is_ws dq) with false. cbv iota.
  change (Ascii.eqb dq dq) with true. cbv iota.
  rewrite read_string_quoted. reflexivity.
Qed.

Lemma parse_value_text (f : nat) (s rest : string) :
  parse_value (S f) (" " ++ quote s ++ rest)%string = Some (JStr s, rest).
Proof.
  rewrite quote_append. cbn [parse_value append skip_ws].
  change (is_ws " ") with true. change (is_ws dq) with false. cbv iota.
  change (Ascii.eqb dq dq) with true. cbv iota.
  now rewrite read_string_quoted.
Qed.

Lemma dump_int_head (z : Z) :
  exists c s, dump_int z = String c s
              /\ In c ["-"; "0"; "1"; "2"; "3"; "4"; "5"; "6"; "7"; "8"; "9"]%char.
Proof.
  unfold dump_int. destruct z as [|p|p]; simpl Z.to_int.
  - exists "0"%char, EmptyString. simpl. tauto.
  - unfold NilZero.string_of_int, NilZero.string_of_uint.
    destruct (to_uint_head p) as [Hnil _].
    destruct (Pos.to_uint p); [contradiction | ..]; cbn [NilEmpty.string_of_uint];
      eexists; eexists; (split; [reflexivity | simpl; tauto]).
  - eexists; eexists. split; [reflexivity | now left].
Qed.

Lemma parse_value_number (f : nat) (z : Z) (rest : string) :
  (forall a, read_digits a rest = (a, rest)) ->
  starts_fraction rest = false ->
  parse_value (S f) (" " ++ dump_int z ++ rest)%string = Some (JInt z, rest).
Proof.
  intros Hd Hf. pose proof (read_number_dump_int z rest Hd Hf) as H.
  destruct (dump_int_head z) as [c [s [E Hc]]]. rewrite E in *.
  cbn [parse_value append skip_ws]. change (is_ws " ") with true. cbv iota.
  cbn [append] in H.
  repeat (destruct Hc as [<- | Hc]; [exact H|]). contradiction.
Qed.

Lemma dump_book (b : Book) (rest : string) :
  (dump 1 (JObj (to_dict b)) ++ rest)%string
  = ("{" ++ nl 2 ++ quote "id" ++ ": " ++ dump_int (id b)
     ++ "," ++ nl 2 ++ quote "title" ++ ": " ++ quote (title b)
     ++ "," ++ nl 2 ++ quote "author" ++ ": " ++ quote (author b)
     ++ "," ++ nl 2 ++ quote "year" ++ ": " ++ dump_int (year b)
     ++ "," ++ nl 2 ++ quote "status" ++ ": " ++ quote (status b)
     ++ nl 1 ++ "}" ++ rest)%string.
Proof.
  cbn [dump to_dict]. rewrite !string_app_assoc. reflexivity.
Qed.

Lemma skip_ws_comma (x : string) :
  skip_ws ("," ++ x)%string = String "," x.
Proof. reflexivity. Qed.

Lemma skip_ws_none (x : string) : skip_ws (EmptyString ++ x)%string = skip_ws x.
Proof. reflexivity. Qed.

Lemma parse_value_book (f : nat) (b : Book) (rest : string) :
  parse_value (7 + f) (dump 1 (JObj (to_dict b)) ++ rest)%string
  = Some (JObj (to_dict b), rest).
Proof.
  rewrite dump_book. change (7 + f)%nat with (S (S (S (S (S (S (S f))))))).
  rewrite parse_value_open_object.
  change (quote "id" ++ ": " ++ dump_int (id b) ++ ?x)%string
    with (EmptyString ++ quote "id" ++ ": " ++ dump_int (id b) ++ x)%string.
  rewrite (parse_members_step _ EmptyString) by reflexivity.
  rewrite parse_value_number by reflexivity.
  rewrite skip_ws_comma. change (Ascii.eqb "," ",") with true. cbv iota.
  rewrite (parse_members_step _ (nl 2)) by apply skip_ws_nl.
  rewrite parse_value_text.
  rewrite skip_ws_comma. change (Ascii.eqb "," ",") with true. cbv iota.
  rewrite (parse_members_step _ (nl 2)) by apply skip_ws_nl.
  rewrite parse_value_text.
  rewrite skip_ws_comma. change (Ascii.eqb "," ",") with true. cbv iota.
  rewrite (parse_members_step _ (nl 2)) by apply skip_ws_nl.
  rewrite parse_value_number by reflexivity.
  rewrite skip_ws_comma. change (Ascii.eqb "," ",") with true. cbv iota.
  rewrite (parse_members_step _ (nl 2)) by apply skip_ws_nl.
  rewrite parse_value_text.
  rewrite skip_ws_nl.
  reflexivity.
Qed.

Lemma dump_list (level : nat) (x : json) (l : list json) :
  dump level (JList (x :: l))
  = ("[" ++ nl (S level) ++ dump (S level) x ++ dump_items (S level) l
     ++ nl level ++ "]")%string.
Proof.
  cbn [dump]. do 4 f_equal.
  induction l as [|y l IH]; [reflexivity|].
  cbn [dump_items]. now rewrite <- IH.
Qed.

Lemma parse_value_nl (f k : nat) (s : string) :
  parse_value f (nl k ++ s)%string = parse_value f s.
Proof.
  destruct f as [|f]; [reflexivity|].
  cbn [parse_value]. now rewrite skip_ws_nl.
Qed.

Lemma parse_items_nl (f k : nat) (s : string) :
  parse_items f (nl k ++ s)%string = parse_items f s.
Proof.
  destruct f as [|f]; [reflexivity|].
  cbn [parse_items]. now rewrite parse_value_nl.
Qed.

Lemma parse_items_books (bs : list Book) (b : Book) (f : nat) (rest : string) :
  parse_items (8 + List.length bs + f)
    (dump 1 (JObj (to_dict b))
     ++ dump_items 1 (map (fun book => JObj (to_dict book)) bs)
     ++ nl 0 ++ "]" ++ rest)%string
  = Some (map (fun book => JObj (to_dict book)) (b :: bs), rest).
Proof.
  revert b f. induction bs as [|b' bs IH]; intros b f.
  - change (8 + List.length (@nil Book) + f)%nat with (S (7 + f)).
    cbn [parse_items]. rewrite parse_value_book.
    reflexivity.
  - change (8 + List.length (b' :: bs) + f)%nat
      with (S (7 + (S (List.length bs + f)))).
    cbn [parse_items]. rewrite parse_value_book.
    cbn [map dump_items]. rewrite !string_app_assoc, skip_ws_comma.
    change (Ascii.eqb "," ",") with true. cbv iota.
    rewrite parse_items_nl.
    change (7 + S (List.length bs + f))%nat with (8 + List.length bs + f)%nat.
    rewrite IH. reflexivity.
Qed.

Lemma dump_items_length (level : nat) (l : list json) :
  (List.length l <= String.length (dump_items level l))%nat.
Proof.
  induction l as [|y l IH]; [apply le_n|].
  cbn [dump_items]. rewrite !string_app_length. simpl. lia.
Qed.

Lemma string_app_nil_r (s : string) : (s ++ EmptyString)%string = s.
Proof. induction s as [|c s IH]; simpl; [reflexivity | now rewrite IH]. Qed.

Lemma loads_dumps_document (bs : list Book) :
  loads (dumps (document bs)) = Some (document bs).
Proof.
  destruct bs as [|b bs]; [reflexivity|].
  unfold loads, dumps, document. cbn [map]. rewrite dump_list.
  set (items := dump_items 1 (map (fun book => JObj (to_dict book)) bs)).
  assert (Hlen : exists f,
             (2 * String.length ("[" ++ nl 1 ++ dump 1 (JObj (to_dict b))
                                  ++ items ++ nl 0 ++ "]")%string + 2
              = S (8 + List.length bs + f))%nat).
  { exists (2 * String.length ("[" ++ nl 1 ++ dump 1 (JObj (to_dict b))
                                  ++ items ++ nl 0 ++ "]")%string + 2
            - S (8 + List.length bs))%nat.
    pose proof (dump_items_length 1 (map (fun book => JObj (to_dict book)) bs))
      as H. fold items in H. rewrite length_map in H.
    rewrite !string_app_length. simpl String.length. lia. }
  destruct Hlen as [f ->].
  rewrite <- (string_app_nil_r "]").
  cbn [parse_value].
  change (skip_ws ("[" ++ ?x)%string) with (String "[" x).
  cbv iota. change (Ascii.eqb "[" dq) with false.
  change (Ascii.eqb "[" "[") with true. cbv iota.
  rewrite skip_ws_nl.
  pose proof (parse_items_books bs b f EmptyString) as P. fold items in P.
  rewrite (dump_book b) in *.
  cbn [append skip_ws] in *. change (is_ws "{") with false. cbv iota.
  change (Ascii.eqb "{" "]") with false. cbv iota.
  rewrite P. reflexivity.
Qed.

Lemma dumps_document_not_empty (bs : list Book) :
  String.length (dumps (document bs)) <> 0%nat.
Proof.
  destruct bs as [|b bs]; [discriminate|].
  unfold dumps, document. cbn [map]. rewrite dump_list. discriminate.
Qed.

Lemma load_dumps_document (bs : list Book) :
  load (dumps (document bs)) = Parsed (document bs).
Proof. unfold load. now rewrite loads_dumps_document. Qed.

Lemma load_after_save (bs : list Book) (w : world) :
  load_data load (save_data dumps bs w) = (Ok bs, save_data dumps bs w).
Proof.
  rewrite (load_data_parsed load _ (dumps (document bs)) (document bs));
    [| reflexivity | apply dumps_document_not_empty
     | apply load_dumps_document].
  now rewrite books_of_json_document.
Qed.

End CodecFacts.

(** * Further properties of the library and of the menu *)

(** ** Searching and listing *)

Section ReadOnly.
Variable lower : string -> string.

Lemma search_books_ok (query field : string) (s : state) (r : list Book) :
  search_results lower (books s) query field = Ok r ->
  search_books lower query field s
  = Ok (mkState (books s)
          (mkWorld (disk (env s)) (writes (env s))
             (console (env s) ++ show_books query r))).
Proof.
  intros H. unfold search_books. rewrite H. simpl.
  destruct r as [|b r]; [reflexivity|].
  now rewrite print_books_spec.
Qed.

(** X1: on [title] and on [author], [search_books] prints the books whose
    field, lowered, contains the lowered query, in the order of the
    collection, or that nothing was found; collection and file stay as they
    are. *)
Theorem search_books_on_text_fields (query : string) (s : state) :
  let by_title :=
    filter (fun book => str_in (lower query) (lower (title book))) (books s) in
  let by_author :=
    filter (fun book => str_in (lower query) (lower (author book))) (books s) in
  search_books lower query "title" s
  = Ok (mkState (books s)
          (mkWorld (disk (env s)) (writes (env s))
             (console (env s) ++ show_books query by_title)))
  /\ search_books lower query "author" s
     = Ok (mkState (books s)
             (mkWorld (disk (env s)) (writes (env s))
                (console (env s) ++ show_books query by_author)))
  /\ (forall book,
        In book by_title <->
        In book (books s)
        /\ exists pre post,
             lower (title book) = (pre ++ lower query ++ post)%string)
  /\ (forall book,
        In book by_author <->
        In book (books s)
        /\ exists pre post,
             lower (author book) = (pre ++ lower query ++ post)%string).
Proof.
  cbv zeta. destruct (search_results_text lower (books s) query) as [Ht Ha].
  split; [now apply search_books_ok|]. split; [now apply search_books_ok|].
  split; intros book; rewrite filter_In, str_in_spec; reflexivity.
Qed.

(** X2: a search that returns leaves the collection and the file alone,
    opens nothing for writing and prints at least one line, none of them the
    message of a change. *)
Theorem search_books_changes_nothing
  (query field : string) (s s' : state) :
  search_books lower query field s = Ok s' ->
  books s' = books s
  /\ disk (env s') = disk (env s)
  /\ writes (env s') = writes (env s)
  /\ exists o, console (env s') = console (env s) ++ o
               /\ o <> [] /\ forall e, In e o -> is_mutation e = false.
Proof.
  intros H. destruct (search_results lower (books s) query field) as [r|e] eqn:E.
  - rewrite (search_books_ok _ _ _ _ E) in H. inversion H; subst; simpl.
    repeat split. exists (show_books query r). split; [reflexivity|].
    destruct r as [|b r]; simpl.
    + split; [discriminate|]. intros e [<- | []]. reflexivity.
    + split; [discriminate|]. intros e [<- | He]; [reflexivity|].
      apply in_map_iff in He. destruct He as [x [<- _]]. reflexivity.
  - unfold search_books in H. rewrite E in H. discriminate.
Qed.

(** X3: a query whose lowered form is empty is contained in every text, so
    the search on [title] or [author] finds every book. *)
Theorem search_with_empty_query_matches_all (query : string) (bs : list Book) :
  lower query = EmptyString ->
  search_results lower bs query "title" = Ok bs
  /\ search_results lower bs query "author" = Ok bs.
Proof.
  intros E. destruct (search_results_text lower bs query) as [-> ->].
  rewrite E.
  assert (H : forall f : Book -> string,
             filter (fun book => str_in EmptyString (lower (f book))) bs = bs).
  { intros f. induction bs as [|b bs IH]; [reflexivity|]. simpl.
    replace (str_in EmptyString (lower (f b))) with true.
    - now rewrite IH.
    - symmetry. apply str_in_spec. now exists EmptyString, (lower (f b)). }
  now rewrite !H.
Qed.

End ReadOnly.

(** X4: [display_books] prints the books one by one in the order of the
    collection, or that there are none, and changes nothing else. *)
Theorem display_books_lists_in_order (s : state) :
  display_books s
  = mkState (books s)
      (mkWorld (disk (env s)) (writes (env s))
         (console (env s)
          ++ match books s with
             | [] => [NoBooks]
             | bs => map (fun book => PrintedBook (to_dict book)) bs
             end)).
Proof.
  unfold display_books. destruct (books s) as [|b bs] eqn:E; [reflexivity|].
  now rewrite print_books_spec.
Qed.

Section Composition.
Variable json_dumps : json -> string.

Lemma delete_book_books (book_id : Z) (s : state) :
  books (delete_book json_dumps book_id s)
  = filter (fun book => negb (id book =? book_id)) (books s).
Proof.
  destruct (in_dec Z.eq_dec book_id (ids (books s))) as [I | N].
  - now rewrite (delete_book_found _ _ _ I).
  - rewrite (delete_book_missing _ _ _ N). simpl.
    symmetry. now apply filter_absent_id.
Qed.

(** X5: deleting the same id a second time finds nothing: it reports the
    missing book and neither changes the collection nor touches the file. *)
Theorem delete_book_twice_reports_missing (book_id : Z) (s : state) :
  let s1 := delete_book json_dumps book_id s in
  let s2 := delete_book json_dumps book_id s1 in
  books s2 = books s1
  /\ disk (env s2) = disk (env s1)
  /\ writes (env s2) = writes (env s1)
  /\ console (env s2) = console (env s1) ++ [NotFound book_id].
Proof.
  cbv zeta.
  assert (N : ~ In book_id (ids (books (delete_book json_dumps book_id s)))).
  { rewrite delete_book_books. intros H. apply ids_filter in H. tauto. }
  rewrite (delete_book_missing _ _ (delete_book json_dumps book_id s) N).
  repeat split.
Qed.

(** X6: deleting the id [add_book] has just assigned gives back the
    collection as it was before the addition, after two writes, the second
    of the document of that collection, which decodes to it. *)
Theorem delete_book_undoes_add_book (t a : string) (y : Z) (s : state) :
  let s1 := add_book json_dumps t a y s in
  let s2 := delete_book json_dumps (generate_id (books s)) s1 in
  books s2 = books s
  /\ console (env s2)
     = console (env s)
       ++ [Added t (generate_id (books s)); Deleted (generate_id (books s))]
  /\ disk (env s2) = Some (json_dumps (document (books s)))
  /\ books_of_json (document (books s)) = Ok (books s)
  /\ writes (env s2) = S (S (writes (env s))).
Proof.
  cbv zeta.
  assert (I : In (generate_id (books s))
                (ids (books (add_book json_dumps t a y s)))).
  { simpl. unfold ids. rewrite map_app. apply in_or_app. right. now left. }
  assert (F : filter (fun book => negb (id book =? generate_id (books s)))
                (books (add_book json_dumps t a y s)) = books s).
  { simpl. rewrite filter_app. simpl. rewrite Z.eqb_refl. simpl.
    rewrite app_nil_r. apply filter_absent_id, generate_id_fresh. }
  rewrite (delete_book_found _ _ _ I). cbv zeta. rewrite F. simpl.
  rewrite <- app_assoc. repeat split. apply books_of_json_document.
Qed.

Lemma filter_filter_swap {A : Type} (f g : A -> bool) (l : list A) :
  filter f (filter g l) = filter g (filter f l).
Proof.
  induction l as [|x l IH]; [reflexivity|]. simpl.
  destruct (g x) eqn:G, (f x) eqn:F; simpl; rewrite ?G, ?F; congruence.
Qed.

(** X7: two deletions leave the same collection whichever comes first. *)
Theorem delete_book_commutes (a b : Z) (s : state) :
  books (delete_book json_dumps a (delete_book json_dumps b s))
  = books (delete_book json_dumps b (delete_book json_dumps a s)).
Proof.
  rewrite !delete_book_books. apply filter_filter_swap.
Qed.

Lemma assign_status_again (bs bs1 : list Book) (book_id : Z) (st1 st2 : string) :
  assign_status bs book_id st1 = Some bs1 ->
  assign_status bs1 book_id st2 = assign_status bs book_id st2.
Proof.
  revert bs1. induction bs as [|b bs IH]; simpl; intros bs1 H; [discriminate|].
  destruct (id b =? book_id) eqn:E.
  - inversion H; subst. simpl. rewrite E. reflexivity.
  - destruct (assign_status bs book_id st1) as [r|] eqn:A; [|discriminate].
    inversion H; subst. simpl. rewrite E. now rewrite (IH r eq_refl).
Qed.

Lemma change_status_books (book_id : Z) (st : string) (s : state) :
  legal_status st = true ->
  books (change_status json_dumps book_id st s)
  = match assign_status (books s) book_id st with
    | Some bs => bs
    | None => books s
    end.
Proof.
  intros L. unfold change_status. rewrite L. simpl.
  now destruct (assign_status (books s) book_id st).
Qed.

Lemma change_status_twice (book_id : Z) (st1 st2 : string) (s : state) :
  legal_status st2 = true ->
  books (change_status json_dumps book_id st2
           (change_status json_dumps book_id st1 s))
  = match assign_status (books s) book_id st2 with
    | Some bs => bs
    | None => books s
    end.
Proof.
  intros L2.
  rewrite (change_status_books book_id st2
             (change_status json_dumps book_id st1 s) L2).
  unfold change_status.
  destruct (negb (legal_status st1)); simpl; [reflexivity|].
  destruct (assign_status (books s) book_id st1) as [bs1|] eqn:A; simpl;
    [|reflexivity].
  rewrite (assign_status_again _ _ _ _ st2 A).
  destruct (assign_status (books s) book_id st2) eqn:B; [reflexivity|].
  apply assign_status_none in B.
  apply (assign_status_none _ _ st1) in B. congruence.
Qed.

(** X8: of two changes of status of the same id, the second (when its
    status is legal) decides the collection alone. *)
Theorem change_status_last_wins (book_id : Z) (st1 st2 : string) (s : state) :
  legal_status st2 = true ->
  books (change_status json_dumps book_id st2
           (change_status json_dumps book_id st1 s))
  = books (change_status json_dumps book_id st2 s).
Proof.
  intros L2. rewrite (change_status_twice _ _ _ _ L2).
  now rewrite (change_status_books book_id st2 s L2).
Qed.

Lemma assign_status_same (bs : list Book) (book_id : Z) (st : string) :
  Forall (fun book => id book = book_id -> status book = st) bs ->
  match assign_status bs book_id st with
  | Some bs' => bs'
  | None => bs
  end = bs.
Proof.
  induction 1 as [|b bs Hb Hbs IH]; simpl; [reflexivity|].
  destruct (Z.eqb_spec (id b) book_id) as [E | N].
  - f_equal. destruct b; simpl in *. now rewrite (Hb E).
  - destruct (assign_status bs book_id st); simpl in *; congruence.
Qed.

(** X9: changing the status of a book and then changing it back to the
    status it had restores the collection. *)
Theorem change_status_back_restores (book_id : Z) (st0 st1 : string) (s : state) :
  legal_status st0 = true ->
  Forall (fun book => id book = book_id -> status book = st0) (books s) ->
  books (change_status json_dumps book_id st0
           (change_status json_dumps book_id st1 s))
  = books s.
Proof.
  intros L H. rewrite (change_status_twice _ _ _ _ L).
  now apply assign_status_same.
Qed.

End Composition.

Section Invariants.
Variable json_dumps : json -> string.

Lemma run_invariant (P : state -> Prop) :
  (forall c s, P s -> P (exec json_dumps c s)) ->
  forall cs s, P s -> P (run json_dumps cs s).
Proof.
  intros step cs. induction cs as [|c cs IH]; intros s H; [exact H|].
  apply IH, step, H.
Qed.

Lemma sorted_snoc (l : list Z) (x : Z) :
  StronglySorted Z.lt l -> Forall (fun y => y < x) l ->
  StronglySorted Z.lt (l ++ [x]).
Proof.
  induction 1 as [|y l Hl IH Hy]; intros Hx; simpl.
  - constructor; constructor.
  - inversion Hx; subst. constructor; [now apply IH|].
    apply Forall_app. split; [exact Hy | constructor; [assumption | constructor]].
Qed.

Lemma sorted_ids_filter (f : Book -> bool) (bs : list Book) :
  StronglySorted Z.lt (ids bs) -> StronglySorted Z.lt (ids (filter f bs)).
Proof.
  induction bs as [|b bs IH]; simpl; intros H; [constructor|].
  inversion H as [|x l Hl Hx]; subst.
  destruct (f b); simpl; [|auto]. constructor; [auto|].
  rewrite Forall_forall in *. intros y Hy. apply Hx.
  unfold ids in *. apply in_map_iff in Hy. destruct Hy as [c [<- Hc]].
  apply filter_In in Hc. apply in_map, Hc.
Qed.

Lemma exec_keeps_sorted (c : command) (s : state) :
  StronglySorted Z.lt (ids (books s)) ->
  StronglySorted Z.lt (ids (books (exec json_dumps c s))).
Proof.
  intros H. destruct c as [t a y | book_id | book_id st]; simpl.
  - unfold ids. rewrite map_app. simpl. apply sorted_snoc; [exact H|].
    pose proof (generate_id_above (books s)) as G.
    rewrite Forall_forall in *. intros x Hx.
    apply in_map_iff in Hx. destruct Hx as [b [<- Hb]]. now apply G.
  - rewrite delete_book_books. now apply sorted_ids_filter.
  - now rewrite change_status_ids.
Qed.

Lemma exec_keeps_positive (c : command) (s : state) :
  Forall (fun i => 0 < i) (ids (books s)) ->
  Forall (fun i => 0 < i) (ids (books (exec json_dumps c s))).
Proof.
  intros H. destruct c as [t a y | book_id | book_id st]; simpl.
  - unfold ids. rewrite map_app. apply Forall_app. split; [exact H|].
    constructor; [|constructor]. simpl.
    destruct (books s) as [|b bs] eqn:E; [reflexivity|].
    pose proof (generate_id_above (b :: bs)) as G.
    inversion G; subst. inversion H; subst. lia.
  - rewrite delete_book_books. rewrite Forall_forall in *.
    intros x Hx. apply ids_filter in Hx. apply H, Hx.
  - now rewrite change_status_ids.
Qed.

Lemma exec_keeps_legal (c : command) (s : state) :
  Forall (fun book => legal_status (status book) = true) (books s) ->
  Forall (fun book => legal_status (status book) = true)
         (books (exec json_dumps c s)).
Proof.
  intros H. destruct c as [t a y | book_id | book_id st]; simpl.
  - apply Forall_app. split; [exact H | constructor; [reflexivity | constructor]].
  - rewrite delete_book_books. rewrite Forall_forall in *.
    intros x Hx. apply filter_In in Hx. apply H, Hx.
  - unfold change_status. destruct (legal_status st) eqn:L; simpl; [|exact H].
    destruct (assign_status (books s) book_id st) as [bs|] eqn:A; simpl;
      [|exact H].
    apply assign_status_some in A.
    destruct A as [l1 [b [l2 [E [_ [_ ->]]]]]]. rewrite E in H.
    apply Forall_app in H. destruct H as [H1 H2]. inversion H2; subst.
    apply Forall_app. split; [exact H1|]. constructor; [exact L | assumption].
Qed.

(** X10: a collection whose ids increase along the list keeps that order
    through every session. *)
Theorem books_stay_sorted_by_id (cs : list command) (s : state) :
  StronglySorted Z.lt (ids (books s)) ->
  StronglySorted Z.lt (ids (books (run json_dumps cs s))).
Proof.
  revert cs s.
  apply (run_invariant (fun s => StronglySorted Z.lt (ids (books s)))).
  apply exec_keeps_sorted.
Qed.

(** X11: when every id is positive, every id stays positive through every
    session; so do the ids the program assigns. *)
Theorem ids_stay_positive (cs : list command) (s : state) :
  Forall (fun i => 0 < i) (ids (books s)) ->
  Forall (fun i => 0 < i) (ids (books (run json_dumps cs s))).
Proof.
  revert cs s.
  apply (run_invariant (fun s => Forall (fun i => 0 < i) (ids (books s)))).
  apply exec_keeps_positive.
Qed.

(** X12: when every book has one of the two legal statuses, so has every
    book after every session. *)
Theorem statuses_stay_legal (cs : list command) (s : state) :
  Forall (fun book => legal_status (status book) = true) (books s) ->
  Forall (fun book => legal_status (status book) = true)
         (books (run json_dumps cs s)).
Proof.
  revert cs s.
  apply (run_invariant
           (fun s => Forall (fun book => legal_status (status book) = true)
                            (books s))).
  apply exec_keeps_legal.
Qed.

Lemma exec_writes (c : command) (s : state) :
  exists e,
    console (env (exec json_dumps c s)) = console (env s) ++ [e]
    /\ writes (env (exec json_dumps c s))
       = (writes (env s) + if is_mutation e then 1 else 0)%nat
    /\ (is_mutation e = true ->
        disk (env (exec json_dumps c s))
        = Some (json_dumps (document (books (exec json_dumps c s)))))
    /\ (is_mutation e = false ->
        disk (env (exec json_dumps c s)) = disk (env s)
        /\ books (exec json_dumps c s) = books s).
Proof.
  destruct c as [t a y | book_id | book_id st]; simpl.
  - eexists. split; [reflexivity|]. simpl.
    split; [lia|]. split; [reflexivity | discriminate].
  - unfold delete_book. destruct (negb _); simpl.
    + eexists. split; [reflexivity|]. simpl.
      split; [lia|]. split; [discriminate | tauto].
    + eexists. split; [reflexivity|]. simpl.
      split; [lia|]. split; [reflexivity | discriminate].
  - unfold change_status. destruct (negb _); simpl.
    + eexists. split; [reflexivity|]. simpl.
      split; [lia|]. split; [discriminate | tauto].
    + destruct (assign_status _ _ _); simpl.
      * eexists. split; [reflexivity|]. simpl.
        split; [lia|]. split; [reflexivity | discriminate].
      * eexists. split; [reflexivity|]. simpl.
        split; [lia|]. split; [discriminate | tauto].
Qed.

(** X13: a session prints one message per call and opens the file for
    writing once for each call that changed the collection, never for a call
    that failed. *)
Theorem one_write_per_mutation (cs : list command) (s : state) :
  exists o,
    console (env (run json_dumps cs s)) = console (env s) ++ o
    /\ List.length o = List.length cs
    /\ writes (env (run json_dumps cs s))
       = (writes (env s) + List.length (filter is_mutation o))%nat.
Proof.
  revert s. induction cs as [|c cs IH]; intros s.
  - exists []. simpl. rewrite app_nil_r. repeat split. lia.
  - destruct (exec_writes c s) as [e [Hc [Hw _]]].
    destruct (IH (exec json_dumps c s)) as [o [Ho [Hl Hn]]].
    exists (e :: o). change (run json_dumps (c :: cs) s)
      with (run json_dumps cs (exec json_dumps c s)).
    rewrite Ho, Hn, Hc, Hw, <- app_assoc. simpl.
    split; [reflexivity|]. split; [now rewrite Hl|].
    destruct (is_mutation e); simpl; lia.
Qed.

(** X14: once the file holds the collection as [save_data] writes it, it
    does so after every session. *)
Theorem file_stays_in_step (cs : list command) (s : state) :
  synced json_dumps s -> synced json_dumps (run json_dumps cs s).
Proof.
  revert cs s. apply (run_invariant (synced json_dumps)).
  intros c s H. unfold synced in *.
  destruct (exec_writes c s) as [e [_ [_ [Hm Hf]]]].
  destruct (is_mutation e); [now apply Hm|].
  destruct (Hf eq_refl) as [-> ->]. exact H.
Qed.

End Invariants.

(** ** Restarting *)

Section Restart.

Variable json_dumps : json -> string.
Variable json_loads : string -> loaded.

Lemma load_data_reads_disk (w1 w2 : world) :
  disk w1 = disk w2 ->
  fst (load_data json_loads w1) = fst (load_data json_loads w2).
Proof.
  intros E. unfold load_data. rewrite E.
  destruct (disk w2) as [text|]; [|reflexivity].
  destruct (String.length text =? 0)%nat; [reflexivity|].
  now destruct (json_loads text).
Qed.

Lemma load_data_keeps_disk (w : world) :
  disk (snd (load_data json_loads w)) = disk w.
Proof.
  unfold load_data. destruct (disk w) as [text|] eqn:E; [|exact E].
  destruct (String.length text =? 0)%nat; [exact E|].
  now destruct (json_loads text).
Qed.

(** X15: [load_data] leaves the file as it is, opens nothing for writing
    and prints at most one of its two messages; when it raises it has printed
    nothing. *)
Theorem load_data_never_writes (w : world) :
  let w' := snd (load_data json_loads w) in
  disk w' = disk w
  /\ writes w' = writes w
  /\ (console w' = console w
      \/ console w' = console w ++ [FileMissingOrEmpty]
      \/ console w' = console w ++ [FileCorrupt])
  /\ (forall e, fst (load_data json_loads w) = Raise e -> w' = w).
Proof.
  cbv zeta. unfold load_data. destruct (disk w) as [text|] eqn:E.
  - destruct (String.length text =? 0)%nat.
    + simpl. repeat split; [exact E | tauto | discriminate].
    + destruct (json_loads text); simpl.
      * repeat split; tauto.
      * repeat split; [exact E | tauto | discriminate].
      * repeat split; tauto.
  - simpl. repeat split; [exact E | tauto | discriminate].
Qed.

Lemma Library_init_reloads (w : world) (s0 : state) :
  Library_init json_loads w = Ok s0 -> reloads json_loads s0.
Proof.
  unfold Library_init, reloads. intros H.
  pose proof (load_data_keeps_disk w) as D.
  destruct (load_data json_loads w) as [r w'] eqn:L. simpl in D.
  destruct r as [bs|e]; simpl in H; [|discriminate].
  inversion H; subst. simpl.
  rewrite (load_data_reads_disk w' w D), L. reflexivity.
Qed.

Lemma reloads_same_store (s1 s2 : state) :
  same_store s1 s2 -> reloads json_loads s2 -> reloads json_loads s1.
Proof.
  unfold same_store, reloads. intros [B [D _]] H.
  now rewrite (load_data_reads_disk (env s1) (env s2) D), B.
Qed.

Hypothesis codec :
  forall bs,
    String.length (json_dumps (document bs)) <> 0%nat
    /\ json_loads (json_dumps (document bs)) = Parsed (document bs).

Lemma exec_reloads (c : command) (s : state) :
  reloads json_loads s -> reloads json_loads (exec json_dumps c s).
Proof.
  intros H. destruct (exec_writes json_dumps c s) as [e [_ [_ [Hm Hf]]]].
  destruct (is_mutation e).
  - unfold reloads. destruct (codec (books (exec json_dumps c s))) as [L P].
    rewrite (load_data_parsed json_loads _ _ _ (Hm eq_refl) L P).
    simpl. apply books_of_json_document.
  - destruct (Hf eq_refl) as [D B]. unfold reloads in *.
    now rewrite (load_data_reads_disk _ _ D), B.
Qed.

Lemma run_reloads (cs : list command) (s : state) :
  reloads json_loads s -> reloads json_loads (run json_dumps cs s).
Proof.
  revert cs s. apply (run_invariant json_dumps (reloads json_loads)).
  apply exec_reloads.
Qed.

Lemma reloads_Library_init (s : state) :
  reloads json_loads s ->
  exists s', Library_init json_loads (env s) = Ok s' /\ books s' = books s.
Proof.
  unfold reloads, Library_init. intros H.
  destruct (load_data json_loads (env s)) as [r w']. simpl in H. subst r.
  simpl. eexists. split; reflexivity.
Qed.

(** X16: when the JSON library reads back what it writes, a library opened
    on the file a session left behind has the collection the session ended
    with. *)
Theorem restart_restores_collection
  (w : world) (s0 : state) (cs : list command) :
  Library_init json_loads w = Ok s0 ->
  exists s',
    Library_init json_loads (env (run json_dumps cs s0)) = Ok s'
    /\ books s' = books (run json_dumps cs s0).
Proof.
  intros H. apply reloads_Library_init, run_reloads.
  exact (Library_init_reloads w s0 H).
Qed.

End Restart.

(** ** The menu *)

Lemma same_store_refl (s : state) : same_store s s.
Proof. repeat split. Qed.

Lemma same_store_trans (s1 s2 s3 : state) :
  same_store s1 s2 -> same_store s2 s3 -> same_store s1 s3.
Proof. unfold same_store. intuition congruence. Qed.

Section MenuFacts.

Variable json_dumps : json -> string.
Variable json_loads : string -> loaded.
Variable lower : string -> string.
Variable strip : string -> string.
Variable isdigit : string -> bool.
Variable py_int : string -> option Z.

Lemma exec_same_store (c : command) (s1 s2 : state) :
  same_store s1 s2 ->
  same_store (exec json_dumps c s1) (exec json_dumps c s2).
Proof.
  intros [B [D W]].
  destruct s1 as [b1 [d1 w1 c1]], s2 as [b2 [d2 w2 c2]]. simpl in *. subst.
  destruct c as [t a y | book_id | book_id st]; unfold same_store; simpl.
  - repeat split.
  - unfold delete_book. simpl. destruct (negb _); simpl; repeat split.
  - unfold change_status. simpl. destruct (negb _); simpl; [repeat split|].
    destruct (assign_status _ _ _); simpl; repeat split.
Qed.

Lemma run_same_store (cs : list command) (s1 s2 : state) :
  same_store s1 s2 ->
  same_store (run json_dumps cs s1) (run json_dumps cs s2).
Proof.
  revert s1 s2. induction cs as [|c cs IH]; intros s1 s2 H; [exact H|].
  apply IH, exec_same_store, H.
Qed.

Lemma tame_still {A : Type} (c : io A) :
  (forall m r m', c m = (r, m') ->
     lib m' = lib m /\ exists used, keys m = used ++ keys m') ->
  tame json_dumps c.
Proof.
  intros H m r m' E. destruct (H m r m' E) as [L U]. split; [exact U|].
  exists []. rewrite L. apply same_store_refl.
Qed.

Lemma tame_ret {A : Type} (a : A) : tame json_dumps (io_ret a).
Proof.
  apply tame_still. intros m r m' E. inversion E; subst.
  split; [reflexivity | now exists []].
Qed.

Lemma tame_raise {A : Type} (e : error) : tame json_dumps (@raise A e).
Proof.
  apply tame_still. intros m r m' E. inversion E; subst.
  split; [reflexivity | now exists []].
Qed.

Lemma tame_say (x : shown) : tame json_dumps (say x).
Proof.
  apply tame_still. intros m r m' E. inversion E; subst.
  split; [reflexivity | now exists []].
Qed.

Lemma tame_books_now : tame json_dumps books_now.
Proof.
  apply tame_still. intros m r m' E. inversion E; subst.
  split; [reflexivity | now exists []].
Qed.

Lemma tame_input (p : prompt) : tame json_dumps (input p).
Proof.
  apply tame_still. intros m r m' E. unfold input in E.
  destruct (keys m) as [|line rest] eqn:K; inversion E; subst; simpl.
  - split; [reflexivity | now exists []].
  - split; [reflexivity | now exists [line]].
Qed.

Lemma tame_bind {A B : Type} (c : io A) (k : A -> io B) :
  tame json_dumps c -> (forall a, tame json_dumps (k a)) ->
  tame json_dumps (io_bind c k).
Proof.
  intros Hc Hk m r m' E. unfold io_bind in E.
  destruct (c m) as [[a|e] m1] eqn:C.
  - destruct (Hc m _ m1 C) as [[u1 U1] [cs1 S1]].
    destruct (Hk a m1 r m' E) as [[u2 U2] [cs2 S2]]. split.
    + exists (u1 ++ u2). now rewrite U1, U2, app_assoc.
    + exists (cs1 ++ cs2). rewrite run_app.
      eapply same_store_trans; [exact S2|]. now apply run_same_store.
  - inversion E; subst. exact (Hc m _ m' C).
Qed.

Lemma tame_call_exec (c : command) : tame json_dumps (call (exec json_dumps c)).
Proof.
  intros m r m' E. inversion E; subst. simpl.
  split; [now exists [] | exists [c]; apply same_store_refl].
Qed.

Lemma display_books_same_store (s : state) : same_store (display_books s) s.
Proof.
  unfold display_books, same_store.
  destruct (books s) as [|b bs]; simpl; [repeat split|].
  rewrite print_books_spec. repeat split.
Qed.

Lemma tame_call_display : tame json_dumps (call display_books).
Proof.
  intros m r m' E. inversion E; subst. simpl.
  split; [now exists []|]. exists []. apply display_books_same_store.
Qed.

Lemma tame_call_search (query field : string) :
  tame json_dumps (call_result (search_books lower query field)).
Proof.
  intros m r m' E. unfold call_result in E.
  destruct (search_books lower query field (lib m)) as [s'|e] eqn:S.
  - inversion E; subst. simpl. split; [now exists []|]. exists []. simpl.
    destruct (search_results lower (books (lib m)) query field) as [res|] eqn:R.
    + rewrite (search_books_ok lower _ _ _ _ R) in S. inversion S; subst.
      repeat split.
    + unfold search_books in S. rewrite R in S. discriminate.
  - inversion E; subst. split; [now exists []|].
    exists []. apply same_store_refl.
Qed.

Ltac tame_steps :=
  repeat first
    [ apply tame_bind; [|intros ?]
    | apply tame_input | apply tame_say | apply tame_ret | apply tame_raise
    | apply tame_books_now | apply tame_call_display | apply tame_call_search
    | apply (tame_call_exec (AddBook _ _ _))
    | apply (tame_call_exec (DeleteBook _))
    | apply (tame_call_exec (ChangeStatus _ _)) ].

Lemma tame_add_dialogue : tame json_dumps (add_dialogue json_dumps isdigit py_int).
Proof.
  unfold add_dialogue. tame_steps.
  - destruct (existsb _ _); tame_steps.
  - destruct (negb _); tame_steps.
  - destruct (py_int _); tame_steps.
Qed.

Lemma tame_delete_dialogue : tame json_dumps (delete_dialogue json_dumps py_int).
Proof. unfold delete_dialogue. tame_steps. destruct (py_int _); tame_steps. Qed.

Lemma tame_search_dialogue : tame json_dumps (search_dialogue lower strip).
Proof.
  unfold search_dialogue. tame_steps. destruct (existsb _ _); tame_steps.
Qed.

Lemma tame_status_dialogue :
  tame json_dumps (status_dialogue json_dumps lower strip py_int).
Proof. unfold status_dialogue. tame_steps. destruct (py_int _); tame_steps. Qed.

(** One pass of the loop: it is tame, it reads at least the choice, and it
    breaks only on the choice 6. *)
Lemma turn_spec (m : session) (r : reply bool) (m' : session) :
  turn json_dumps lower strip isdigit py_int m = (r, m') ->
  (exists cs, same_store (lib m') (run json_dumps cs (lib m)))
  /\ (forall b, r = Val b ->
        exists choice used,
          keys m = choice :: used ++ keys m'
          /\ (b = true -> choice = "6")).
Proof.
  intros E. unfold turn in E. unfold io_bind at 1 in E. simpl in E.
  unfold io_bind at 1 in E. unfold input at 1 in E. simpl in E.
  destruct (keys m) as [|choice rest] eqn:K.
  { inversion E; subst. split; [|discriminate].
    exists []. apply same_store_refl. }
  set (m1 := mkSession (lib m) ((screen m ++ [Menu]) ++ [Asked AskChoice]) rest)
    in E.
  assert (T : forall (c : io unit), tame json_dumps c ->
            io_bind c (fun _ => io_ret false) m1 = (r, m') ->
            (exists cs, same_store (lib m') (run json_dumps cs (lib m)))
            /\ (forall b, r = Val b ->
                  exists used, rest = used ++ keys m' /\ b = false)).
  { intros c Hc Ec.
    assert (Hb : tame json_dumps (io_bind c (fun _ => io_ret false)))
      by (apply tame_bind; [exact Hc | intros; apply tame_ret]).
    destruct (Hb m1 r m' Ec) as [[used U] S]. split; [exact S|].
    intros b Eb. exists used. split; [exact U|].
    unfold io_bind in Ec. destruct (c m1) as [[[]|e] m2]; inversion Ec; subst.
    - now inversion H0.
    - discriminate. }
  assert (F : forall P : Prop,
            (exists cs, same_store (lib m') (run json_dumps cs (lib m)))
            /\ (forall b, r = Val b ->
                  exists used, rest = used ++ keys m' /\ b = false) ->
            (exists cs, same_store (lib m') (run json_dumps cs (lib m)))
            /\ (forall b, r = Val b ->
                  exists choice0 used,
                    choice :: rest = choice0 :: used ++ keys m'
                    /\ (b = true -> choice0 = "6"))).
  { intros _ [S H]. split; [exact S|]. intros b Eb.
    destruct (H b Eb) as [used [U Bf]]. exists choice, used.
    split; [now rewrite U | intros; congruence]. }
  destruct (String.eqb choice "1");
    [apply (F True), (T _ tame_add_dialogue E)|].
  destruct (String.eqb choice "2");
    [apply (F True), (T _ tame_delete_dialogue E)|].
  destruct (String.eqb choice "3");
    [apply (F True), (T _ tame_search_dialogue E)|].
  destruct (String.eqb choice "4");
    [apply (F True), (T _ tame_call_display E)|].
  destruct (String.eqb choice "5");
    [apply (F True), (T _ tame_status_dialogue E)|].
  destruct (String.eqb_spec choice "6") as [-> | N6].
  - inversion E; subst. split; [exists []; apply same_store_refl|].
    intros b Eb. exists "6", []. simpl. split; [reflexivity | reflexivity].
  - apply (F True), (T _ (tame_say BadChoice) E).
Qed.

Lemma main_loop_spec (fuel : nat) (m : session) :
  (List.length (keys m) < fuel)%nat ->
  exists how m',
    main_loop json_dumps lower strip isdigit py_int fuel m = Ended how m'
    /\ (exists cs, same_store (lib m') (run json_dumps cs (lib m)))
    /\ (how = Exited -> In "6" (keys m)).
Proof.
  revert m. induction fuel as [|fuel IH]; intros m H; [lia|].
  simpl.
  destruct (turn json_dumps lower strip isdigit py_int m) as [[b|e] m1] eqn:T;
    destruct (turn_spec m _ m1 T) as [[cs S] V].
  - destruct (V b eq_refl) as [choice [used [K B]]]. destruct b.
    + exists Exited, m1. split; [reflexivity|]. split; [now exists cs|].
      intros _. rewrite K, (B eq_refl). now left.
    + destruct (IH m1) as [how [m' [E [[cs' S'] X]]]].
      { rewrite K in H. simpl in H. rewrite length_app in H. lia. }
      exists how, m'. split; [exact E|]. split.
      * exists (cs ++ cs'). rewrite run_app.
        eapply same_store_trans; [exact S'|]. now apply run_same_store.
      * intros Hx. rewrite K. right. apply in_or_app. right. now apply X.
  - exists (Raised e), m1. split; [reflexivity|]. split; [now exists cs|].
    discriminate.
Qed.

(** X19: [main] always ends: in the constructor of [Library], by [break],
    which takes a line 6 in the script, or by an exception; and what it did
    to the collection and the file is what a session of [add_book],
    [delete_book] and [change_status] calls does. *)
Theorem main_ends_after_a_session (file : option string) (script : list string) :
  (exists e,
     Library_init json_loads (mkWorld file 0%nat []) = Raise e
     /\ main json_dumps json_loads lower strip isdigit py_int file script
        = NoLibrary e)
  \/ (exists s0 how m cs,
        Library_init json_loads (mkWorld file 0%nat []) = Ok s0
        /\ main json_dumps json_loads lower strip isdigit py_int file script
           = Ended how m
        /\ same_store (lib m) (run json_dumps cs s0)
        /\ (how = Exited -> In "6" script)).
Proof.
  unfold main.
  destruct (Library_init json_loads (mkWorld file 0%nat [])) as [s0|e].
  - right.
    destruct (main_loop_spec (S (List.length script))
                (mkSession s0 (map Said (console (env s0))) script))
      as [how [m [E [[cs S] X]]]]; [simpl; lia|].
    exists s0, how, m, cs.
    split; [reflexivity|]. split; [exact E|]. split; [exact S | exact X].
  - left. exists e. split; reflexivity.
Qed.

(** X20: a catalogue begun on a missing or empty file and worked on
    through the menu has, however [main] ends, ids that are positive and
    increase along the collection, and only legal statuses. *)
Theorem main_from_scratch_keeps_ids_in_order
  (file : option string) (script : list string) (how : ending) (m : session) :
  file = None \/ file = Some EmptyString ->
  main json_dumps json_loads lower strip isdigit py_int file script
  = Ended how m ->
  StronglySorted Z.lt (ids (books (lib m)))
  /\ Forall (fun i => 0 < i) (ids (books (lib m)))
  /\ Forall (fun book => legal_status (status book) = true) (books (lib m)).
Proof.
  intros Hf E. unfold main in E.
  assert (L : Library_init json_loads (mkWorld file 0%nat [])
              = Ok (mkState [] (print FileMissingOrEmpty
                                  (mkWorld file 0%nat []))))
    by (destruct Hf as [-> | ->]; reflexivity).
  rewrite L in E.
  destruct (main_loop_spec (S (List.length script))
              (mkSession (mkState [] (print FileMissingOrEmpty
                                        (mkWorld file 0%nat [])))
                 (map Said (console (env (mkState []
                    (print FileMissingOrEmpty (mkWorld file 0%nat []))))))
                 script))
    as [how' [m' [E' [[cs [B _]] _]]]]; [simpl; lia|].
  rewrite E' in E. inversion E; subst. rewrite B. simpl.
  split; [|split].
  - apply (run_invariant json_dumps
             (fun s => StronglySorted Z.lt (ids (books s))));
      [apply exec_keeps_sorted | constructor].
  - apply (run_invariant json_dumps
             (fun s => Forall (fun i => 0 < i) (ids (books s))));
      [apply exec_keeps_positive | constructor].
  - apply (run_invariant json_dumps
             (fun s => Forall (fun book => legal_status (status book) = true)
                              (books s)));
      [apply exec_keeps_legal | constructor].
Qed.

(** X21: when the JSON library reads back what it writes, the file [main]
    leaves behind, however it ended, loads as the collection [main] ended
    with. *)
Theorem main_leaves_a_loadable_file
  (file : option string) (script : list string) (how : ending) (m : session) :
  (forall bs,
     String.length (json_dumps (document bs)) <> 0%nat
     /\ json_loads (json_dumps (document bs)) = Parsed (document bs)) ->
  main json_dumps json_loads lower strip isdigit py_int file script
  = Ended how m ->
  exists s',
    Library_init json_loads (env (lib m)) = Ok s'
    /\ books s' = books (lib m).
Proof.
  intros codec E. unfold main in E.
  destruct (Library_init json_loads (mkWorld file 0%nat [])) as [s0|e] eqn:L;
    [|discriminate].
  destruct (main_loop_spec (S (List.length script))
              (mkSession s0 (map Said (console (env s0))) script))
    as [how' [m' [E' [[cs S] _]]]]; [simpl; lia|].
  rewrite E' in E. inversion E; subst.
  apply (reloads_Library_init json_loads).
  apply (reloads_same_store json_loads _ _ S).
  apply (run_reloads json_dumps json_loads codec).
  exact (Library_init_reloads json_loads _ _ L).
Qed.

Lemma skipn_past {A : Type} (l r : list A) :
  skipn (List.length l) (l ++ r) = r.
Proof. induction l as [|x l IH]; [reflexivity | exact IH]. Qed.

(** X22: the year is asked again once when [isdigit] rejects it, and the
    text then in hand goes to [int]: when [int] rejects it [main] dies of
    [ValueError], with nothing added and nothing written. *)
Theorem menu_add_dies_on_a_bad_year
  (s : state) (scr : list shown) (t a y y2 : string) (rest : list string) :
  existsb (fun book => String.eqb (title book) t) (books s) = false ->
  (isdigit y = true -> py_int y = None ->
   turn json_dumps lower strip isdigit py_int
     (mkSession s scr ("1" :: t :: a :: y :: rest))
   = (Exc ValueError,
      mkSession s
        (scr ++ [Menu; Asked AskChoice; Asked AskTitle; Asked AskAuthor;
                 Asked AskYear])
        rest))
  /\ (isdigit y = false -> py_int y2 = None ->
      turn json_dumps lower strip isdigit py_int
        (mkSession s scr ("1" :: t :: a :: y :: y2 :: rest))
      = (Exc ValueError,
         mkSession s
           (scr ++ [Menu; Asked AskChoice; Asked AskTitle; Asked AskAuthor;
                    Asked AskYear; Asked AskYearAgain])
           rest)).
Proof.
  intros Ht. split; intros Hd Hi;
    unfold turn, add_dialogue, io_bind, say, input, books_now, io_ret, raise;
    simpl; rewrite Ht; simpl; rewrite Hd; simpl; rewrite Hi; simpl;
    rewrite <- !app_assoc; reflexivity.
Qed.

(** X23: a title the catalogue already has is reported and asked again
    once; the second answer is taken unchecked, so a book with that very
    title can be added. *)
Theorem menu_add_takes_the_second_title
  (s : state) (scr : list shown) (t t2 a y : string) (n : Z)
  (rest : list string) :
  existsb (fun book => String.eqb (title book) t) (books s) = true ->
  isdigit y = true -> py_int y = Some n ->
  turn json_dumps lower strip isdigit py_int
    (mkSession s scr ("1" :: t :: t2 :: a :: y :: rest))
  = (Val false,
     mkSession (add_book json_dumps t2 a n s)
       (scr ++ [Menu; Asked AskChoice; Asked AskTitle; TitleExists t;
                Asked AskTitleAgain; Asked AskAuthor; Asked AskYear;
                Said (Added t2 (generate_id (books s)))])
       rest).
Proof.
  intros Ht Hd Hi.
  unfold turn, add_dialogue, io_bind, say, input, books_now, io_ret, call;
    simpl; rewrite Ht; simpl; rewrite Hd; simpl; rewrite Hi; simpl.
  unfold said_since. simpl. rewrite skipn_past. simpl.
  rewrite <- !app_assoc. reflexivity.
Qed.

(** X24: an id that is no number (when deleting or changing a status), a
    field other than the three and a choice other than 1 to 6 are reported;
    the library is not called and the loop goes on.  After a bad id the new
    status is not asked. *)
Theorem menu_reports_bad_input
  (s : state) (scr : list shown) (x : string) (rest : list string) :
  (py_int x = None ->
   turn json_dumps lower strip isdigit py_int
     (mkSession s scr ("2" :: x :: rest))
   = (Val false,
      mkSession s (scr ++ [Menu; Asked AskChoice; Asked AskDeleteId; BadId])
        rest))
  /\ (py_int x = None ->
      turn json_dumps lower strip isdigit py_int
        (mkSession s scr ("5" :: x :: rest))
      = (Val false,
         mkSession s (scr ++ [Menu; Asked AskChoice; Asked AskStatusId; BadId])
           rest))
  /\ (~ In (lower (strip x)) ["title"; "author"; "year"] ->
      turn json_dumps lower strip isdigit py_int
        (mkSession s scr ("3" :: x :: rest))
      = (Val false,
         mkSession s (scr ++ [Menu; Asked AskChoice; Asked AskField; BadField])
           rest))
  /\ (~ In x ["1"; "2"; "3"; "4"; "5"; "6"] ->
      turn json_dumps lower strip isdigit py_int (mkSession s scr (x :: rest))
      = (Val false,
         mkSession s (scr ++ [Menu; Asked AskChoice; BadChoice]) rest)).
Proof.
  clear json_loads. split; [|split; [|split]].
  - intros Hi.
    unfold turn, delete_dialogue, io_bind, say, input, io_ret; simpl.
    rewrite Hi. simpl. rewrite <- !app_assoc. reflexivity.
  - intros Hi.
    unfold turn, status_dialogue, io_bind, say, input, io_ret; simpl.
    rewrite Hi. simpl. rewrite <- !app_assoc. reflexivity.
  - intros Hf.
    assert (N : forall k, In k ["title"; "author"; "year"] ->
                          String.eqb (lower (strip x)) k = false).
    { intros k Hk. apply String.eqb_neq. intros E. apply Hf.
      now rewrite E. }
    unfold turn, search_dialogue, io_bind, say, input, io_ret; simpl.
    rewrite !N by (simpl; tauto). simpl.
    rewrite <- !app_assoc. reflexivity.
  - intros Hx.
    assert (N : forall k, In k ["1"; "2"; "3"; "4"; "5"; "6"] ->
                          String.eqb x k = false).
    { intros k Hk. apply String.eqb_neq. intros ->. now apply Hx. }
    unfold turn, io_bind, say, input, io_ret; simpl.
    rewrite !N by (simpl; tauto). simpl.
    rewrite <- !app_assoc. reflexivity.
Qed.

(** X25: searching by year from the menu kills [main] as soon as the
    catalogue has a book: the [AttributeError] of [search_books] is not
    caught. *)
Theorem menu_search_by_year_dies
  (s : state) (scr : list shown) (f q : string) (rest : list string) :
  books s <> [] -> lower (strip f) = "year" ->
  turn json_dumps lower strip isdigit py_int
    (mkSession s scr ("3" :: f :: q :: rest))
  = (Exc (LibraryError AttributeError),
     mkSession s
       (scr ++ [Menu; Asked AskChoice; Asked AskField; Asked (AskQuery "year")])
       rest).
Proof.
  intros Hb Hf. destruct (books s) as [|b bs] eqn:B; [contradiction|].
  unfold turn, search_dialogue, io_bind, say, input, io_ret, call_result;
    simpl.
  rewrite Hf. simpl. unfold search_books. rewrite B. simpl.
  rewrite <- !app_assoc. reflexivity.
Qed.

End MenuFacts.

(** ** Decoding the records of the file *)

Lemma dict_get_in (k : string) (v : json) (kw : dict) :
  NoDup (map fst kw) -> In (k, v) kw -> dict_get k kw = Some v.
Proof.
  induction kw as [|[k' v'] kw IH]; simpl; intros Hnd Hin; [contradiction|].
  inversion Hnd as [|x l Hx Hl]; subst.
  destruct (String.eqb_spec k k') as [-> | N].
  - destruct Hin as [E | Hin]; [congruence|].
    exfalso. apply Hx. now apply (in_map fst) in Hin.
  - destruct Hin as [E | Hin]; [congruence | auto].
Qed.

Lemma dict_get_absent (k : string) (kw : dict) :
  ~ In k (map fst kw) -> dict_get k kw = None.
Proof.
  induction kw as [|[k' v'] kw IH]; simpl; intros H; [reflexivity|].
  destruct (String.eqb_spec k k') as [-> | N]; [tauto | apply IH; tauto].
Qed.

Lemma dict_get_present (k : string) (kw : dict) :
  In k (map fst kw) -> exists v, dict_get k kw = Some v.
Proof.
  induction kw as [|[k' v'] kw IH]; simpl; intros H; [contradiction|].
  destruct (String.eqb_spec k k') as [-> | N]; [now exists v'|].
  destruct H as [E | H]; [congruence | auto].
Qed.

Lemma to_dict_keys (b : Book) : map fst (to_dict b) = param_names.
Proof. reflexivity. Qed.

Lemma param_names_distinct : NoDup param_names.
Proof.
  unfold param_names. repeat constructor; simpl; intuition discriminate.
Qed.

Lemma kwargs_are_params (kw : dict) :
  incl (map fst kw) param_names ->
  forallb (fun kv => is_param (fst kv)) kw = true.
Proof.
  intros H. apply forallb_forall. intros [k v] Hin. unfold is_param. cbn [fst].
  apply existsb_exists. exists k. split; [|apply String.eqb_refl].
  apply H. now apply (in_map fst) in Hin.
Qed.

(** The keys of a record may come in any order, and [status] may be left
    out, in which case the book is in stock. *)
Lemma Book_of_kwargs_any_order (b : Book) (kw : dict) :
  (Permutation kw (to_dict b) -> Book_of_kwargs kw = Ok b)
  /\ (Permutation kw (firstn 4 (to_dict b)) ->
      Book_of_kwargs kw
      = Ok (mkBook (id b) (title b) (author b) (year b) in_stock)).
Proof.
  split; intros P.
  - assert (Hnd : NoDup (map fst kw)).
    { apply (Permutation_NoDup (Permutation_sym (Permutation_map fst P))).
      rewrite to_dict_keys. apply param_names_distinct. }
    assert (G : forall k v, In (k, v) (to_dict b) -> dict_get k kw = Some v).
    { intros k v H. apply dict_get_in; [exact Hnd|].
      apply (Permutation_in _ (Permutation_sym P) H). }
    unfold Book_of_kwargs. rewrite (kwargs_are_params kw).
    + simpl.
      rewrite (G "id" (JInt (id b))), (G "title" (JStr (title b))),
        (G "author" (JStr (author b))), (G "year" (JInt (year b))),
        (G "status" (JStr (status b))) by (simpl; tauto).
      now destruct b.
    + rewrite <- (to_dict_keys b). intros k Hk.
      apply (Permutation_in _ (Permutation_map fst P) Hk).
  - assert (Hnd : NoDup (map fst kw)).
    { apply (Permutation_NoDup (Permutation_sym (Permutation_map fst P))).
      simpl. repeat constructor; simpl; intuition discriminate. }
    assert (G : forall k v, In (k, v) (firstn 4 (to_dict b)) ->
                            dict_get k kw = Some v).
    { intros k v H. apply dict_get_in; [exact Hnd|].
      apply (Permutation_in _ (Permutation_sym P) H). }
    assert (S : dict_get "status" kw = None).
    { apply dict_get_absent. intros H.
      apply (Permutation_in _ (Permutation_map fst P)) in H.
      simpl in H. intuition discriminate. }
    unfold Book_of_kwargs. rewrite (kwargs_are_params kw).
    + simpl.
      rewrite (G "id" (JInt (id b))), (G "title" (JStr (title b))),
        (G "author" (JStr (author b))), (G "year" (JInt (year b))), S
        by (simpl; tauto).
      reflexivity.
    + intros k Hk. apply (Permutation_in _ (Permutation_map fst P)) in Hk.
      simpl in *. tauto.
Qed.

(** A value that is no dict, a dict with a key [__init__] does not take, and
    a dict without one of the four required keys all make the call of
    [Book] raise [TypeError]. *)
Lemma Book_of_json_bad_record (j : json) :
  match j with
  | JObj kw =>
      (exists k, In k (map fst kw) /\ ~ In k param_names)
      \/ (exists k, In k ["id"; "title"; "author"; "year"]
                    /\ ~ In k (map fst kw))
  | _ => True
  end ->
  Book_of_json j = Raise TypeError.
Proof.
  destruct j as [| | | | |l|kw]; try reflexivity. simpl.
  unfold Book_of_kwargs.
  destruct (forallb (fun kv => is_param (fst kv)) kw) eqn:F; [|reflexivity].
  simpl. intros [[k [Hin Hno]] | [k [Hin Hno]]].
  - exfalso. apply in_map_iff in Hin. destruct Hin as [[k' v] [E Hin]].
    simpl in E. subst k'.
    rewrite forallb_forall in F. specialize (F _ Hin). simpl in F.
    unfold is_param in F. apply existsb_exists in F.
    destruct F as [p [Hp E]]. apply String.eqb_eq in E. subst p. tauto.
  - apply dict_get_absent in Hno.
    simpl in Hin. decompose [or] Hin; subst; try contradiction;
      rewrite Hno;
      repeat match goal with
             | |- context [dict_get ?x kw] => destruct (dict_get x kw)
             end; reflexivity.
Qed.

Lemma map_result_stops {A B : Type} (f : A -> result B)
  (xs : list A) (ys : list B) (x : A) (rest : list A) (e : exn) :
  map_result f xs = Ok ys -> f x = Raise e ->
  map_result f (xs ++ x :: rest) = Raise e.
Proof.
  revert ys. induction xs as [|a xs IH]; simpl; intros ys Hx He.
  - now rewrite He.
  - destruct (f a) as [y|]; simpl in *; [|discriminate].
    destruct (map_result f xs) as [r|]; simpl in *; [|discriminate].
    now rewrite (IH r eq_refl He).
Qed.

Section Decoding.

Variable json_loads : string -> loaded.

(** X17: records whose keys come in another order than [to_dict] writes
    them, or that lack [status] (the book is then in stock), load all the
    same. *)
Theorem load_data_accepts_any_key_order
  (w : world) (text : string) (kws : list dict) (bs : list Book) :
  disk w = Some text -> String.length text <> 0%nat ->
  json_loads text = Parsed (JList (map JObj kws)) ->
  Forall2 (fun kw b =>
             Permutation kw (to_dict b)
             \/ (status b = in_stock
                 /\ Permutation kw (firstn 4 (to_dict b))))
          kws bs ->
  load_data json_loads w = (Ok bs, w).
Proof.
  intros D L P F.
  rewrite (load_data_parsed json_loads w text _ D L P). f_equal. simpl.
  clear P. induction F as [|kw b kws bs H F IH]; [reflexivity|]. simpl.
  destruct (Book_of_kwargs_any_order b kw) as [H1 H2].
  assert (E : Book_of_kwargs kw = Ok b).
  { destruct H as [H | [S H]]; [now apply H1|].
    rewrite (H2 H), <- S. now destruct b. }
  rewrite E. simpl. now rewrite IH.
Qed.

(** X18: one record that [Book] cannot take (no dict, an unknown key, a
    required key missing) makes the whole load raise [TypeError]; nothing is
    printed and no catalogue is returned. *)
Theorem load_data_fails_on_a_bad_record
  (w : world) (text : string) (good : list Book) (j : json)
  (rest : list json) :
  disk w = Some text -> String.length text <> 0%nat ->
  json_loads text
  = Parsed (JList (map (fun book => JObj (to_dict book)) good ++ j :: rest)) ->
  match j with
  | JObj kw =>
      (exists k, In k (map fst kw) /\ ~ In k param_names)
      \/ (exists k, In k ["id"; "title"; "author"; "year"]
                    /\ ~ In k (map fst kw))
  | _ => True
  end ->
  load_data json_loads w = (Raise TypeError, w).
Proof.
  intros D L P B.
  rewrite (load_data_parsed json_loads w text _ D L P). f_equal. simpl.
  apply (map_result_stops _ _ good).
  - exact (books_of_json_document good).
  - now apply Book_of_json_bad_record.
Qed.

End Decoding.

(** ** The properties at work *)

Lemma search_books_changes_nothing_witness :
  exists s',
    search_books ascii_lower "dune" "title" two_books = Ok s'
    /\ books s' = books two_books
    /\ writes (env s') = writes (env two_books).
Proof.
  eexists. split; [reflexivity|].
  destruct (search_books_changes_nothing ascii_lower "dune" "title"
              two_books _ eq_refl) as [B [_ [W _]]].
  split; [exact B | exact W].
Defined.

Lemma search_with_empty_query_matches_all_witness :
  ascii_lower EmptyString = EmptyString
  /\ search_results ascii_lower [dune; foundation] EmptyString "title"
     = Ok [dune; foundation].
Proof.
  split; [reflexivity|].
  apply (search_with_empty_query_matches_all ascii_lower EmptyString
           [dune; foundation]).
  reflexivity.
Defined.

Lemma change_status_last_wins_witness :
  legal_status in_stock = true
  /\ books (change_status Codec.dumps 2 in_stock
              (change_status Codec.dumps 2 lent_out two_books))
     = books (change_status Codec.dumps 2 in_stock two_books).
Proof.
  split; [reflexivity|].
  apply (change_status_last_wins Codec.dumps 2 lent_out in_stock two_books).
  reflexivity.
Defined.

Lemma change_status_back_restores_witness :
  legal_status in_stock = true
  /\ Forall (fun book => id book = 2 -> status book = in_stock)
            (books two_books)
  /\ books (change_status Codec.dumps 2 in_stock
              (change_status Codec.dumps 2 lent_out two_books))
     = books two_books.
Proof.
  assert (F : Forall (fun book => id book = 2 -> status book = in_stock)
                     (books two_books))
    by (repeat constructor).
  split; [reflexivity|]. split; [exact F|].
  apply (change_status_back_restores Codec.dumps 2 in_stock lent_out two_books);
    [reflexivity | exact F].
Defined.

Lemma books_stay_sorted_by_id_witness :
  StronglySorted Z.lt (ids (books empty_library))
  /\ StronglySorted Z.lt
       (ids (books (run Codec.dumps keeping_session empty_library))).
Proof.
  split; [constructor|].
  apply (books_stay_sorted_by_id Codec.dumps keeping_session empty_library).
  constructor.
Defined.

Lemma ids_stay_positive_witness :
  Forall (fun i => 0 < i) (ids (books empty_library))
  /\ Forall (fun i => 0 < i)
       (ids (books (run Codec.dumps keeping_session empty_library))).
Proof.
  split; [constructor|].
  apply (ids_stay_positive Codec.dumps keeping_session empty_library).
  constructor.
Defined.

Lemma statuses_stay_legal_witness :
  Forall (fun book => legal_status (status book) = true) (books empty_library)
  /\ Forall (fun book => legal_status (status book) = true)
       (books (run Codec.dumps keeping_session empty_library)).
Proof.
  split; [constructor|].
  apply (statuses_stay_legal Codec.dumps keeping_session empty_library).
  constructor.
Defined.

Lemma file_stays_in_step_witness :
  synced Codec.dumps one_book
  /\ synced Codec.dumps (run Codec.dumps keeping_session one_book).
Proof.
  assert (S : synced Codec.dumps one_book) by reflexivity.
  split; [exact S|].
  apply (file_stays_in_step Codec.dumps keeping_session one_book S).
Defined.

Lemma codec_reads_back (bs : list Book) :
  String.length (Codec.dumps (document bs)) <> 0%nat
  /\ Codec.load (Codec.dumps (document bs)) = Parsed (document bs).
Proof.
  split; [apply CodecFacts.dumps_document_not_empty
         | apply CodecFacts.load_dumps_document].
Qed.

Lemma restart_restores_collection_witness :
  Library_init Codec.load fresh_world = Ok (mkState [] (print FileMissingOrEmpty fresh_world))
  /\ exists s',
       Library_init Codec.load
         (env (run Codec.dumps keeping_session
                 (mkState [] (print FileMissingOrEmpty fresh_world))))
       = Ok s'
       /\ books s'
          = books (run Codec.dumps keeping_session
                     (mkState [] (print FileMissingOrEmpty fresh_world))).
Proof.
  split; [reflexivity|].
  apply (restart_restores_collection Codec.dumps Codec.load codec_reads_back
           fresh_world _ keeping_session).
  reflexivity.
Defined.

Lemma load_data_accepts_any_key_order_witness :
  Codec.load (Codec.dumps (JList [JObj shuffled_record]))
  = Parsed (JList (map JObj [shuffled_record]))
  /\ Permutation shuffled_record (firstn 4 (to_dict dune))
  /\ load_data Codec.load shuffled_world = (Ok [dune], shuffled_world).
Proof.
  assert (P : Codec.load (Codec.dumps (JList [JObj shuffled_record]))
              = Parsed (JList (map JObj [shuffled_record])))
    by (vm_compute; reflexivity).
  assert (Q : Permutation shuffled_record (firstn 4 (to_dict dune))).
  { unfold shuffled_record. simpl.
    eapply perm_trans; [apply perm_swap|].
    apply perm_skip, perm_skip, perm_swap. }
  split; [exact P|]. split; [exact Q|].
  apply (load_data_accepts_any_key_order Codec.load shuffled_world
           (Codec.dumps (JList [JObj shuffled_record]))
           [shuffled_record] [dune]);
    [reflexivity | vm_compute; discriminate | exact P|].
  constructor; [|constructor]. right. split; [reflexivity | exact Q].
Defined.

Lemma load_data_fails_on_a_bad_record_witness :
  Codec.load (Codec.dumps (JList [JObj (to_dict dune); JObj [("id", JInt 2)]]))
  = Parsed (JList (map (fun book => JObj (to_dict book)) [dune]
                 ++ JObj [("id", JInt 2)] :: []))
  /\ load_data Codec.load broken_world = (Raise TypeError, broken_world).
Proof.
  assert (P : Codec.load
                (Codec.dumps (JList [JObj (to_dict dune); JObj [("id", JInt 2)]]))
              = Parsed (JList (map (fun book => JObj (to_dict book)) [dune]
                               ++ JObj [("id", JInt 2)] :: [])))
    by (vm_compute; reflexivity).
  split; [exact P|].
  apply (load_data_fails_on_a_bad_record Codec.load broken_world
           (Codec.dumps (JList [JObj (to_dict dune); JObj [("id", JInt 2)]]))
           [dune] (JObj [("id", JInt 2)]) []);
    [reflexivity | vm_compute; discriminate | exact P|].
  right. exists "title". split; [simpl; tauto|].
  simpl. intros [H | []]. discriminate.
Defined.

Lemma main_from_scratch_keeps_ids_in_order_witness :
  match run_main None sample_script with
  | Ended _ m =>
      StronglySorted Z.lt (ids (books (lib m)))
      /\ Forall (fun i => 0 < i) (ids (books (lib m)))
      /\ Forall (fun book => legal_status (status book) = true) (books (lib m))
  | _ => False
  end.
Proof.
  destruct (run_main None sample_script) as [e|how m|] eqn:E.
  - vm_compute in E. discriminate.
  - apply (main_from_scratch_keeps_ids_in_order Codec.dumps Codec.load
             ascii_lower ascii_strip ascii_isdigit ascii_int
             None sample_script how m); [left; reflexivity | exact E].
  - vm_compute in E. discriminate.
Defined.

Lemma main_leaves_a_loadable_file_witness :
  match run_main None sample_script with
  | Ended _ m =>
      exists s',
        Library_init Codec.load (env (lib m)) = Ok s'
        /\ books s' = books (lib m)
  | _ => False
  end.
Proof.
  destruct (run_main None sample_script) as [e|how m|] eqn:E.
  - vm_compute in E. discriminate.
  - apply (main_leaves_a_loadable_file Codec.dumps Codec.load
             ascii_lower ascii_strip ascii_isdigit ascii_int
             None sample_script how m codec_reads_back E).
  - vm_compute in E. discriminate.
Defined.

Lemma menu_add_dies_on_a_bad_year_witness :
  (ascii_isdigit "12a" = false /\ ascii_int "twelve" = None)
  /\ run_turn (mkSession empty_library []
                 ["1"; "Dune"; "Herbert"; "12a"; "twelve"; "6"])
     = (Exc ValueError,
        mkSession empty_library
          ([] ++ [Menu; Asked AskChoice; Asked AskTitle; Asked AskAuthor;
                  Asked AskYear; Asked AskYearAgain])
          ["6"]).
Proof.
  split; [split; reflexivity|].
  apply (proj2 (menu_add_dies_on_a_bad_year Codec.dumps ascii_lower ascii_strip
                  ascii_isdigit ascii_int empty_library []
                  "Dune" "Herbert" "12a" "twelve" ["6"] eq_refl));
    reflexivity.
Defined.

Lemma menu_add_takes_the_second_title_witness :
  existsb (fun book => String.eqb (title book) "Dune") (books two_books) = true
  /\ run_turn (mkSession two_books [] ["1"; "Dune"; "Dune"; "Herbert"; "1965"])
     = (Val false,
        mkSession (add_book Codec.dumps "Dune" "Herbert" 1965 two_books)
          ([] ++ [Menu; Asked AskChoice; Asked AskTitle; TitleExists "Dune";
                  Asked AskTitleAgain; Asked AskAuthor; Asked AskYear;
                  Said (Added "Dune" (generate_id (books two_books)))])
          []).
Proof.
  split; [reflexivity|].
  apply (menu_add_takes_the_second_title Codec.dumps ascii_lower ascii_strip
           ascii_isdigit ascii_int two_books [] "Dune" "Dune" "Herbert" "1965"
           1965 []); reflexivity.
Defined.

Lemma menu_reports_bad_input_witness :
  ascii_int "one" = None
  /\ run_turn (mkSession two_books [] ["2"; "one"; "6"])
     = (Val false,
        mkSession two_books
          ([] ++ [Menu; Asked AskChoice; Asked AskDeleteId; BadId]) ["6"])
  /\ run_turn (mkSession two_books [] ["3"; "id"; "6"])
     = (Val false,
        mkSession two_books
          ([] ++ [Menu; Asked AskChoice; Asked AskField; BadField]) ["6"]).
Proof.
  destruct (menu_reports_bad_input Codec.dumps ascii_lower ascii_strip
              ascii_isdigit ascii_int two_books [] "one" ["6"])
    as [H2 _].
  destruct (menu_reports_bad_input Codec.dumps ascii_lower ascii_strip
              ascii_isdigit ascii_int two_books [] "id" ["6"])
    as [_ [_ [H3 _]]].
  split; [reflexivity|]. split; [apply H2; reflexivity|].
  apply H3. simpl. intuition discriminate.
Defined.

Lemma menu_search_by_year_dies_witness :
  books two_books <> []
  /\ ascii_lower (ascii_strip " Year ") = "year"
  /\ run_turn (mkSession two_books [] ["3"; " Year "; "19"; "6"])
     = (Exc (LibraryError AttributeError),
        mkSession two_books
          ([] ++ [Menu; Asked AskChoice; Asked AskField;
                  Asked (AskQuery "year")])
          ["6"]).
Proof.
  assert (N : books two_books <> []) by discriminate.
  split; [exact N|]. split; [reflexivity|].
  apply (menu_search_by_year_dies Codec.dumps ascii_lower ascii_strip
           ascii_isdigit ascii_int two_books [] " Year " "19" ["6"] N).
  reflexivity.
Defined.
